(** * nibabies: transform concatenation and conditional workflow assembly

    A shallow embedding of

    - [nibabies/interfaces/patches.py] (the [ConcatXFM] command line),
    - [nibabies/workflows/anatomical/registration.py],
    - [nibabies/workflows/anatomical/surfaces.py],
    - [nibabies/workflows/anatomical/brain_extraction.py],
    - [nibabies/workflows/anatomical/preproc.py],
    - [nibabies/workflows/bold/t2s.py],

    together with the part of the workflow engine these builders drive
    (node creation, [Workflow.connect], map-node replication). *)

From Stdlib Require Import ZArith List String Ascii Bool Lia.
From stdpp Require Import base option gmap strings list.
Import ListNotations.
Open Scope string_scope.
Set Warnings "-register-all".

(** ** Python values, exceptions and results *)

(** A decimal float literal [mantissa * 10 ^ exponent].  The builders only
    store floats in node parameters; they never compute with them. *)
Record pyfloat := Float { mantissa : Z; exponent : Z }.

Inductive pyval :=
| VNone
| VBool (b : bool)
| VInt (z : Z)
| VFloat (f : pyfloat)
| VStr (s : string)
| VList (l : list pyval)
| VTuple (l : list pyval)
| VDict (kvs : list (pyval * pyval)).

(** Python truthiness ([bool(v)]). *)
Definition truthy (v : pyval) : bool :=
  match v with
  | VNone => false
  | VBool b => b
  | VInt z => negb (z =? 0)%Z
  | VFloat f => negb (mantissa f =? 0)%Z
  | VStr s => negb (String.eqb s "")
  | VList l | VTuple l => negb (Nat.eqb (length l) 0)
  | VDict kvs => negb (Nat.eqb (length kvs) 0)
  end.

Inductive exn :=
| ValueError (msg : string)
| KeyError (msg : string)
| IndexError
| NotImplementedError (msg : string)
| RuntimeError (msg : string)
| TypeError (msg : string)
| ModuleNotFoundError (msg : string)
| TraitError (msg : string)
(* raised by the workflow engine *)
| DuplicateNameError (name : string)
| PortArityError (node port : string)
| UnknownPortError (node port : string)
| ArityMismatchError (node : string)
| CyclicGraphError.

Inductive result (A : Type) :=
| Ok (a : A)
| Raise (e : exn).
Arguments Ok {A} a.
Arguments Raise {A} e.

#[global] Instance result_ret : MRet result := fun A a => Ok a.
#[global] Instance result_bind : MBind result :=
  fun A B f m => match m with Ok a => f a | Raise e => Raise e end.
#[global] Instance result_fmap : FMap result :=
  fun A B f m => match m with Ok a => Ok (f a) | Raise e => Raise e end.

Definition is_ok {A} (r : result A) : bool :=
  match r with Ok _ => true | Raise _ => false end.

(** [s.replace(old, new)] for a non-empty [old]: occurrences are replaced
    from left to right, without overlap.  [skip] counts the characters of a
    matched occurrence still to be dropped. *)
Fixpoint replace_from (old new : string) (skip : nat) (s : string) : string :=
  match s with
  | EmptyString => EmptyString
  | String c s' =>
      match skip with
      | S k => replace_from old new k s'
      | O =>
          if String.prefix old s then new +:+ replace_from old new (String.length old - 1) s'
          else String c (replace_from old new 0 s')
      end
  end.

Definition str_replace (s old new : string) : string := replace_from old new 0 s.

(** ** [ConcatXFM] (interfaces/patches.py) *)

Module ConcatXFM.

(** [self.inputs.invert_transform_flags] is [None] while the trait is
    undefined; an undefined trait and an empty list are both falsy. *)
Definition flags_falsy (invert_flags : option (list bool)) : bool :=
  match invert_flags with
  | None => true
  | Some l => Nat.eqb (length l) 0
  end.

(** Lines 83-92: the invert flags that the loop runs over, zipped with
    the transforms. *)
Definition transform_chain (transforms : list string)
    (invert_transform_flags : option (list bool)) : result (list (string * bool)) :=
  let invert_flags := invert_transform_flags in
  invert_flags ←
    (if flags_falsy invert_flags then
       mret (replicate (length transforms) false)
     else if negb (Nat.eqb (length transforms) (length (default [] invert_flags))) then
       Raise (ValueError ("ERROR: The invert_transform_flags list must have the same number "
                          +:+ "of entries as the transforms list."))
     else mret (default [] invert_flags));
  mret (zip transforms invert_flags).

(** Lines 93-96: one command-line argument per (transform, invert) pair. *)
Definition transform_arg (p : string * bool) : string :=
  let '(transform, invert) := p in
  if invert then "--transform [ " +:+ transform +:+ ", 1 ]"
  else "--transform " +:+ transform.

Definition _get_transform_filenames (transforms : list string)
    (invert_transform_flags : option (list bool)) : result string :=
  chain ← transform_chain transforms invert_transform_flags;
  let retval := map transform_arg chain in
  mret (String.concat " " retval).

(** The external tool.  The description of the [transforms] trait reads
    "transform files: will be applied in reverse order. For example, the
    last specified transform will be applied first."  [resample t inv img]
    stands for applying the single transform [t] (its inverse when [inv])
    to [img]. *)
Section Application.
Context {image : Type}.
Variable resample : string → bool → image → image.

(** The last specified transform is innermost, hence applied first. *)
Definition antsApplyTransforms (chain : list (string * bool)) (moving : image) : image :=
  fold_right (λ p img, resample p.1 p.2 img) moving chain.

(** Applying a sequence of steps one after the other, first to last. *)
Definition apply_in_sequence (steps : list (string * bool)) (moving : image) : image :=
  fold_left (λ img p, resample p.1 p.2 img) steps moving.
End Application.

End ConcatXFM.

(** ** The workflow engine

    Nodes, workflows and [Workflow.connect] as the builders use them.
    Description text ([__desc__]) and logging are left out. *)

Module Engine.

(** An interface instance.  [IdentityInterface] declares its fields in
    the builders' source; every other interface is an external
    collaborator known by its class name and constructor arguments. *)
Inductive interface :=
| IdentityInterface (fields : list string)
| Interface (cls : string) (kwargs : list (string * pyval)).

Inductive node_kind :=
| PlainNode
| MapNode (iterfield : list string)
| SubWorkflow.

(** [node_id] is the identity of the Python object: the number of engine
    objects created before it. *)
Record node := Node {
  node_id : nat;
  node_name : string;
  kind : node_kind;
  node_interface : interface;
  inputs : list (string * pyval);   (* [node.inputs.x = v] *)
  node_kwargs : list (string * pyval) (* [mem_gb], [n_procs], ... *)
}.

(** A source port: an output field, possibly piped through a function
    (as in [(('outdir', _parent), 'subjects_dir')]). *)
Record out_port := OutPort { out_field : string; modifier : option string }.

Record edge := Edge {
  src : string; src_port : out_port;
  dst : string; dst_port : string
}.

Record Workflow := {
  wf_name : string;
  nodes : list node;   (* insertion order *)
  edges : list edge
}.

Definition connection : Type := node * node * list (out_port * string).

(** *** Build state: created engine objects and the heap of dicts *)

Abbreviation dict := (gmap string pyval).

Record build_state := {
  instantiated : list node;   (* every node created so far, oldest first *)
  dicts : list dict           (* dict objects, addressed by position *)
}.

Definition initial_state : build_state := {| instantiated := []; dicts := [] |}.

Definition M (A : Type) : Type := build_state → result A * build_state.

#[global] Instance M_ret : MRet M := λ A a s, (Ok a, s).
#[global] Instance M_bind : MBind M := λ A B f m s,
  match m s with
  | (Ok a, s') => f a s'
  | (Raise e, s') => (Raise e, s')
  end.

Definition raise {A} (e : exn) : M A := λ s, (Raise e, s).
Definition lift {A} (r : result A) : M A := λ s, (r, s).

(** *** Dict objects *)

(** [{}] or a dict literal: a new object. *)
Definition alloc_dict (d : dict) : M nat :=
  λ s, (Ok (length (dicts s)),
        {| instantiated := instantiated s; dicts := dicts s ++ [d] |}).

Definition read_dict (ref : nat) : M dict :=
  λ s, (Ok (default ∅ (dicts s !! ref)), s).

(** [d[key] = v], in place. *)
Definition dict_setitem (ref : nat) (key : string) (v : pyval) : M unit :=
  λ s, (Ok (),
        {| instantiated := instantiated s;
           dicts := alter (insert key v) ref (dicts s) |}).

Definition dict_truthy (d : dict) : bool := negb (Nat.eqb (size d) 0).

(** [d.get(key)] *)
Definition dict_get (d : dict) (key : string) : pyval := default VNone (d !! key).

(** *** Node creation *)

Definition new_node (k : node_kind) (i : interface) (name : string)
    (kwargs : list (string * pyval)) : M node :=
  λ s,
    let n := Node (length (instantiated s)) name k i [] kwargs in
    (Ok n, {| instantiated := instantiated s ++ [n]; dicts := dicts s |}).

Definition pe_Node := new_node PlainNode.
Definition pe_MapNode (i : interface) (name : string) (iterfield : list string) :=
  new_node (MapNode iterfield) i name.

(** [node.clone(name)]: a fresh object with the same interface, inputs and
    engine arguments under a new name. *)
Definition clone (n : node) (name : string) : M node :=
  λ s,
    let n' := Node (length (instantiated s)) name (kind n) (node_interface n)
                   (inputs n) (node_kwargs n) in
    (Ok n', {| instantiated := instantiated s ++ [n']; dicts := dicts s |}).

(** [node.inputs.field = v] *)
Definition set_input (n : node) (field : string) (v : pyval) : node :=
  Node (node_id n) (node_name n) (kind n) (node_interface n)
       (inputs n ++ [(field, v)]) (node_kwargs n).

(** [node.config = v] and similar attributes set after creation. *)
Definition set_kwarg (n : node) (key : string) (v : pyval) : node :=
  Node (node_id n) (node_name n) (kind n) (node_interface n)
       (inputs n) (node_kwargs n ++ [(key, v)]).

Definition pe_Workflow (name : string) : Workflow :=
  {| wf_name := name; nodes := []; edges := [] |}.

(** *** [Workflow.connect] *)

Definition has_node (ns : list node) (n : node) : bool :=
  existsb (λ m, Nat.eqb (node_id m) (node_id n)) ns.

(** The nodes of a connection list that are not in [ns] yet, each once,
    in order of appearance. *)
Fixpoint new_nodes (ns : list node) (cl : list connection) : list node :=
  match cl with
  | [] => []
  | (srcnode, destnode, _) :: cl' =>
      let add1 := if has_node ns srcnode then [] else [srcnode] in
      let add2 := if has_node (ns ++ add1) destnode then [] else [destnode] in
      add1 ++ add2 ++ new_nodes (ns ++ add1 ++ add2) cl'
  end.

Definition name_in (names : list string) (name : string) : bool :=
  existsb (String.eqb name) names.

(** Modelled from the spec: the engine's duplicate-name check (the engine
    is a library the builders import; its code is not among the modelled
    files).  Names are unique within a workflow. *)
Fixpoint check_nodes (names : list string) (new : list node) : result unit :=
  match new with
  | [] => Ok ()
  | n :: new' =>
      if name_in names (node_name n) then Raise (DuplicateNameError (node_name n))
      else check_nodes (names ++ [node_name n]) new'
  end.

Definition port_in (ports : list (string * string)) (node port : string) : bool :=
  existsb (λ p, String.eqb p.1 node && String.eqb p.2 port) ports.

(** Modelled from the spec: which ports the engine takes as declared.
    Ports are known by name only for nodes whose fields the builder
    declares. *)
Definition declares (n : node) (port : string) : bool :=
  match node_interface n with
  | IdentityInterface fields => name_in fields port
  | Interface _ _ => true
  end.

(** Modelled from the spec: the engine's port checks, a destination port
    takes at most one edge and both ports must be declared. *)
Fixpoint check_ports (connected : list (string * string)) (srcnode destnode : node)
    (connects : list (out_port * string)) : result (list (string * string)) :=
  match connects with
  | [] => Ok connected
  | (source, dest) :: connects' =>
      if port_in connected (node_name destnode) dest then
        Raise (PortArityError (node_name destnode) dest)
      else if negb (declares destnode dest) then
        Raise (UnknownPortError (node_name destnode) dest)
      else if negb (declares srcnode (out_field source)) then
        Raise (UnknownPortError (node_name srcnode) (out_field source))
      else check_ports (connected ++ [(node_name destnode, dest)]) srcnode destnode connects'
  end.

Fixpoint check_connections (connected : list (string * string))
    (cl : list connection) : result unit :=
  match cl with
  | [] => Ok ()
  | (srcnode, destnode, connects) :: cl' =>
      connected' ← check_ports connected srcnode destnode connects;
      check_connections connected' cl'
  end.

Definition edges_of (c : connection) : list edge :=
  let '(srcnode, destnode, connects) := c in
  map (λ p, Edge (node_name srcnode) p.1 (node_name destnode) p.2) connects.

(** Modelled from the spec: [Workflow.connect] of the engine.  All checks
    run before the graph is touched: either every connection of the list
    is added or none. *)
Definition connect (wf : Workflow) (connection_list : list connection) : M Workflow :=
  lift (
    let newnodes := new_nodes (nodes wf) connection_list in
    _ ← check_nodes (map node_name (nodes wf)) newnodes;
    _ ← check_connections (map (λ e, (dst e, dst_port e)) (edges wf)) connection_list;
    mret {| wf_name := wf_name wf;
            nodes := nodes wf ++ newnodes;
            edges := edges wf ++ concat (map edges_of connection_list) |}).

(** *** Reading an assembled graph *)

Definition node_names (wf : Workflow) : list string := map node_name (nodes wf).

Definition has_node_named (wf : Workflow) (name : string) : bool :=
  name_in (node_names wf) name.

Definition has_edge (wf : Workflow) (s sp d dp : string) : bool :=
  existsb (λ e, String.eqb (src e) s && String.eqb (out_field (src_port e)) sp
                && String.eqb (dst e) d && String.eqb (dst_port e) dp) (edges wf).

(** Edges arriving at port [port] of the node called [name]. *)
Definition inbound (wf : Workflow) (name port : string) : list edge :=
  List.filter (λ e, String.eqb (dst e) name && String.eqb (dst_port e) port) (edges wf).

Definition find_node (wf : Workflow) (name : string) : option node :=
  List.find (λ n, String.eqb (node_name n) name) (nodes wf).

(** The fields declared on the workflow's [outputnode]. *)
Definition declared_outputs (wf : Workflow) : list string :=
  match find_node wf "outputnode" with
  | Some n => match node_interface n with
              | IdentityInterface fields => fields
              | Interface _ _ => []
              end
  | None => []
  end.

(** The structure of a graph: everything but object identities. *)
Definition node_structure (n : node)
  : string * node_kind * interface * list (string * pyval) * list (string * pyval) :=
  (node_name n, kind n, node_interface n, inputs n, node_kwargs n).

Definition structure (wf : Workflow) :=
  (wf_name wf, map node_structure (nodes wf), edges wf).

End Engine.

Notation "a ~> b" := (Engine.OutPort a None, b) (at level 60, no associativity).

(** ** External collaborators

    Functions and constants the builders import from outside the modelled
    files.  Their results are only stored in node parameters or tested for
    truthiness. *)

Record externals := {
  get_file : string → string → pyval;          (* nibabies.utils.misc.get_file *)
  pkgr_fn : string → string → pyval;           (* pkg_resources.resource_filename *)
  (* templateflow.api.get(template, **kwargs): explicit keywords, then the
     keywords unpacked from a dict *)
  get_template : string → list (string * pyval) → Engine.dict → result pyval;
  cohort_by_months : string → Z → result pyval; (* nibabies.utils.misc *)
  py_str : pyval → string;                     (* str(...) *)
  load_readable : string → string;             (* nibabies.data.load.readable *)
  (* smriprep's get_metadata(template): the metadata of a template, or the
     error raised for an id TemplateFlow does not know *)
  get_metadata : string → result Engine.dict;
  file_exists : string → bool;                 (* os.path.isfile *)
  DEFAULT_MEMORY_MIN_GB : pyfloat              (* nibabies.config *)
}.

Definition py_int_opt (z : option Z) : pyval :=
  match z with Some z => VInt z | None => VNone end.

(** The parameters shared by the three N4BiasFieldCorrection nodes. *)
Definition N4BiasFieldCorrection (bspline_fitting_distance : Z) : Engine.interface :=
  Engine.Interface "N4BiasFieldCorrection"
    [("dimension", VInt 3);
     ("bspline_fitting_distance", VInt bspline_fitting_distance);
     ("save_bias", VBool true);
     ("copy_header", VBool true);
     ("n_iterations", VList (replicate 5 (VInt 50)));
     ("convergence_threshold", VFloat (Float 1 (-7)));
     ("rescale_intensities", VBool true);
     ("shrink_factor", VInt 4)].

(** ** workflows/anatomical/registration.py *)

Module registration.
Import Engine.

Section Builders.
Variable ext : externals.

Definition init_coregistration_wf
    (bspline_fitting_distance : Z) (mem_gb : pyfloat) (omp_nthreads : option Z)
    (sloppy debug t1w_mask probmap : bool) (name : string) : M Workflow :=
  let workflow := pe_Workflow name in
  inputnode ← pe_Node
    (IdentityInterface ["in_t1w"; "in_t2w"; "in_mask"; "in_probmap"]) "inputnode" [];
  outputnode ← pe_Node
    (IdentityInterface ["t1w_preproc"; "t1w_brain"; "t1w_mask";
                        "t1w2t2w_xfm"; "t2w2t1w_xfm"; "t2w_preproc"]) "outputnode" [];
  (* Dilate t2w mask for easier t1->t2 registration *)
  fixed_masks_arg ← pe_Node (Interface "Merge" [("numinputs", VInt 3)]) "fixed_masks_arg"
    [("run_without_submitting", VBool true)];
  reg_mask ← pe_Node
    (Interface "BinaryDilation" [("radius", VInt 8); ("iterations", VInt 3)]) "reg_mask" [];
  refine_mask ← pe_Node
    (Interface "BinaryDilation" [("radius", VInt 8); ("iterations", VInt 1)])
    "refine_mask" [];
  (* Set up T1w -> T2w within-subject registration *)
  coreg ← pe_Node
    (Interface "Registration"
       [("from_file", get_file ext "nibabies" "data/within_subject_t1t2.json")])
    "coreg" [("n_procs", py_int_opt omp_nthreads); ("mem_gb", VFloat mem_gb)];
  let coreg := set_input coreg "float" (VBool sloppy) in
  let coreg :=
    if debug then
      let coreg := set_input coreg "args" (VStr "--write-interval-volumes 5") in
      let coreg := set_input coreg "output_inverse_warped_image" (VBool sloppy) in
      set_input coreg "output_warped_image" (VBool sloppy)
    else coreg in
  final_n4 ← pe_Node (N4BiasFieldCorrection bspline_fitting_distance) "final_n4"
    [("n_procs", py_int_opt omp_nthreads)];
  (* Move the T2w into T1w space, and apply the mask to the T1w *)
  map_t2w ← pe_Node (Interface "ApplyTransforms" [("interpolation", VStr "BSpline")])
    "map_t2w" [("mem_gb", VInt 1)];
  apply_mask ← pe_Node (Interface "ApplyMask" []) "apply_mask" [];
  workflow ← connect workflow [
    (inputnode, final_n4, ["in_t1w" ~> "input_image"]);
    (inputnode, coreg, ["in_t1w" ~> "moving_image";
                        "in_t2w" ~> "fixed_image"]);
    (reg_mask, fixed_masks_arg, [
       "out_file" ~> "in1";
       "out_file" ~> "in2"]);
    (refine_mask, fixed_masks_arg, ["out_file" ~> "in3"]);
    (inputnode, map_t2w, [
       "in_t1w" ~> "reference_image";
       "in_t2w" ~> "input_image"]);
    (fixed_masks_arg, coreg, ["out" ~> "fixed_image_masks"]);
    (coreg, map_t2w, [
       "reverse_transforms" ~> "transforms";
       "reverse_invert_flags" ~> "invert_transform_flags"]);
    (final_n4, apply_mask, ["output_image" ~> "in_file"]);
    (final_n4, outputnode, ["output_image" ~> "t1w_preproc"]);
    (map_t2w, outputnode, ["output_image" ~> "t2w_preproc"]);
    (apply_mask, outputnode, ["out_file" ~> "t1w_brain"]);
    (coreg, outputnode, ["forward_transforms" ~> "t1w2t2w_xfm"]);
    (coreg, outputnode, ["reverse_transforms" ~> "t2w2t1w_xfm"])
  ];
  if t1w_mask then
    (* The input mask is already in T1w space.
       Generate a quick, rough mask of the T2w to be used to facilitate
       co-registration. *)
    masker ← pe_Node (Interface "BrainExtraction" []) "t2w_masker" [];
    workflow ← connect workflow [
      (inputnode, masker, ["in_t2w" ~> "in_file"]);
      (masker, reg_mask, ["out_mask" ~> "in_file"]);
      (masker, refine_mask, ["out_mask" ~> "in_file"]);
      (inputnode, apply_mask, ["in_mask" ~> "in_mask"]);
      (inputnode, outputnode, ["in_mask" ~> "t1w_mask"])
    ];
    mret workflow
  else if probmap then
    (* The T2w mask from the brain extraction workflow will be mapped to
       T1w space *)
    map_mask ← pe_Node (Interface "ApplyTransforms" [("interpolation", VStr "Gaussian")])
      "map_mask" [("mem_gb", VInt 1)];
    thr_mask ← pe_Node (Interface "Binarize" [("thresh_low", VFloat (Float 80 (-2)))])
      "thr_mask" [];
    workflow ← connect workflow [
      (inputnode, reg_mask, ["in_mask" ~> "in_file"]);
      (inputnode, refine_mask, ["in_mask" ~> "in_file"]);
      (inputnode, map_mask, [
         "in_t1w" ~> "reference_image";
         "in_probmap" ~> "input_image"]);
      (coreg, map_mask, [
         "reverse_transforms" ~> "transforms";
         "reverse_invert_flags" ~> "invert_transform_flags"]);
      (map_mask, thr_mask, ["output_image" ~> "in_file"]);
      (map_mask, final_n4, ["output_image" ~> "weight_image"]);
      (thr_mask, outputnode, ["out_mask" ~> "t1w_mask"]);
      (thr_mask, apply_mask, ["out_mask" ~> "in_mask"])
    ];
    mret workflow
  else
    (* A precomputed T2w mask was provided *)
    map_precomp_mask ← pe_Node
      (Interface "ApplyTransforms" [("interpolation", VStr "MultiLabel")])
      "map_precomp_mask" [];
    workflow ← connect workflow [
      (inputnode, reg_mask, ["in_mask" ~> "in_file"]);
      (inputnode, refine_mask, ["in_mask" ~> "in_file"]);
      (inputnode, map_precomp_mask, [
         "in_t1w" ~> "reference_image";
         "in_mask" ~> "input_image"]);
      (coreg, map_precomp_mask, [
         "reverse_transforms" ~> "transforms";
         "reverse_invert_flags" ~> "invert_transform_flags"]);
      (map_precomp_mask, final_n4, ["output_image" ~> "weight_image"]);
      (map_precomp_mask, outputnode, ["output_image" ~> "t1w_mask"]);
      (map_precomp_mask, apply_mask, ["output_image" ~> "in_mask"])
    ];
    mret workflow.

(** Move derivatives from T1w / T2w space. *)
Definition init_coregister_derivatives_wf
    (t1w_mask t1w_aseg t2w_aseg : bool) (name : string) : M Workflow :=
  let workflow := pe_Workflow name in
  inputnode ← pe_Node
    (IdentityInterface ["t1w_ref"; "t2w_ref"; "t1w2t2w_xfm";
                        "t1w_mask"; "t1w_aseg"; "t2w_aseg"]) "inputnode" [];
  outputnode ← pe_Node
    (IdentityInterface ["t2w_mask"; "t1w_aseg"; "t2w_aseg"]) "outputnode" [];
  workflow ←
    (if t1w_mask then
       t1wmask2t2w ← pe_Node
         (Interface "ApplyTransforms" [("interpolation", VStr "MultiLabel")])
         "t1wmask2t2w" [];
       connect workflow [
         (inputnode, t1wmask2t2w, [
            "t1w_mask" ~> "input_image";
            "t1w2t2w_xfm" ~> "transforms";
            "t2w_ref" ~> "reference_image"]);
         (t1wmask2t2w, outputnode, ["output_image" ~> "t2w_mask"])
       ]
     else mret workflow);
  workflow ←
    (if t1w_aseg then
       t1waseg2t2w ← pe_Node
         (Interface "ApplyTransforms" [("interpolation", VStr "MultiLabel")])
         "t1waseg2t2w" [];
       connect workflow [
         (inputnode, t1waseg2t2w, [
            "t1w_aseg" ~> "input_image";
            "t1w2t2w_xfm" ~> "transforms";
            "t2w_ref" ~> "reference_image"]);
         (t1waseg2t2w, outputnode, ["output_image" ~> "t2w_aseg"])
       ]
     else mret workflow);
  workflow ←
    (if t2w_aseg then
       t2waseg2t1w ← pe_Node
         (Interface "ApplyTransforms" [("interpolation", VStr "MultiLabel")])
         "t2waseg2t1w" [];
       let t2waseg2t1w := set_input t2waseg2t1w "invert_transform_flags"
                            (VList [VBool true; VBool false]) in
       connect workflow [
         (inputnode, t2waseg2t1w, [
            "t2w_aseg" ~> "input_image";
            "t1w2t2w_xfm" ~> "transforms";
            "t1w_ref" ~> "reference_image"]);
         (t2waseg2t1w, outputnode, ["output_image" ~> "t1w_aseg"])
       ]
     else mret workflow);
  mret workflow.

(** [template.split(':')[0]] *)
Fixpoint before_colon (template : string) : string :=
  match template with
  | EmptyString => EmptyString
  | String c rest => if Ascii.eqb c ":" then EmptyString else String c (before_colon rest)
  end.

(** Lines 353-384 write the description of the workflow.  The text itself
    is left out; what is kept is what these lines can raise: for every
    template, in order, its metadata is looked up under the id before the
    colon and its ['Name'] is read. *)
Definition describe_templates (templates : list string) : M unit :=
  lift (_ ← mapM (λ template,
                    template_meta ← get_metadata ext (before_colon template);
                    match template_meta !! "Name" with
                    | Some _ => Ok ()
                    | None => Raise (KeyError "Name")
                    end) templates;
        Ok ()).

(** Concatenate two transforms to produce a single transform, from
    native to each of [templates]. *)
Definition init_concat_registrations_wf
    (templates : list string) (name : string) : M Workflow :=
  let workflow := pe_Workflow name in
  _ ← describe_templates templates;
  inputnode ← pe_Node
    (IdentityInterface ["template"; "anat_preproc"; "anat2std_xfm";
                        "intermediate"; "std2anat_xfm"]) "inputnode" [];
  let inputnode := set_input inputnode "template" (VList (map VStr templates)) in
  let out_fields := ["anat2std_xfm"; "std2anat_xfm"; "template"; "template_spec"] in
  outputnode ← pe_Node (IdentityInterface out_fields) "outputnode" [];
  intermed_xfms ← pe_MapNode
    (Interface "Function"
       [("function", VStr "_load_intermediate_xfms");
        ("output_names", VList [VStr "int2std_xfm"; VStr "std2int_xfm"])])
    "intermed_xfms" ["std"] [("run_without_submitting", VBool true)];
  split_desc ← pe_MapNode (Interface "TemplateDesc" [])
    "split_desc" ["template"] [("run_without_submitting", VBool true)];
  tf_select ← pe_MapNode (Interface "TemplateFlowSelect" [("resolution", VInt 1)])
    "tf_select" ["template"; "template_spec"] [("run_without_submitting", VBool true)];
  merge_anat2std ← pe_MapNode (Interface "Merge" [("numinputs", VInt 2)])
    "merge_anat2std" ["in1"; "in2"] [("run_without_submitting", VBool true)];
  merge_std2anat ← clone merge_anat2std "merge_std2anat";
  concat_anat2std ← pe_MapNode (Interface "ConcatXFM" [])
    "concat_anat2std" ["transforms"; "reference_image"]
    [("mem_gb", VFloat (DEFAULT_MEMORY_MIN_GB ext))];
  concat_std2anat ← pe_MapNode (Interface "ConcatXFM" [])
    "concat_std2anat" ["transforms"; "reference_image"]
    [("mem_gb", VFloat (DEFAULT_MEMORY_MIN_GB ext))];
  fmt_cohort ← pe_MapNode
    (Interface "Function"
       [("function", VStr "_fmt_cohort");
        ("output_names", VList [VStr "template"; VStr "spec"])])
    "fmt_cohort" ["template"; "spec"] [("run_without_submitting", VBool true)];
  workflow ← connect workflow [
    (inputnode, merge_anat2std, ["anat2std_xfm" ~> "in2"]);
    (inputnode, merge_std2anat, ["std2anat_xfm" ~> "in2"]);
    (inputnode, concat_std2anat, ["anat_preproc" ~> "reference_image"]);
    (inputnode, intermed_xfms, ["intermediate" ~> "intermediate"]);
    (inputnode, intermed_xfms, ["template" ~> "std"]);

    (intermed_xfms, merge_anat2std, ["int2std_xfm" ~> "in1"]);
    (intermed_xfms, merge_std2anat, ["std2int_xfm" ~> "in1"]);

    (merge_anat2std, concat_anat2std, ["out" ~> "transforms"]);
    (merge_std2anat, concat_std2anat, ["out" ~> "transforms"]);

    (inputnode, split_desc, ["template" ~> "template"]);
    (split_desc, tf_select, [
       "name" ~> "template";
       "spec" ~> "template_spec"]);
    (tf_select, concat_anat2std, ["t1w_file" ~> "reference_image"]);
    (split_desc, fmt_cohort, [
       "name" ~> "template";
       "spec" ~> "spec"]);
    (fmt_cohort, outputnode, [
       "template" ~> "template";
       "spec" ~> "template_spec"]);
    (concat_anat2std, outputnode, ["out_xfm" ~> "anat2std_xfm"]);
    (concat_std2anat, outputnode, ["out_xfm" ~> "std2anat_xfm"])
  ];
  mret workflow.

Definition _load_intermediate_xfms (intermediate std : string) : string * string :=
  (* MNIInfant:cohort-1 -> MNIInfant+1 *)
  let intmed := str_replace intermediate ":cohort-" "+" in
  let int2std :=
    load_readable ext ("tpl_xfms/from-" +:+ intmed +:+ "_to-" +:+ std +:+ "_xfm.h5") in
  let std2int :=
    load_readable ext ("tpl_xfms/from-" +:+ std +:+ "_to-" +:+ intmed +:+ "_xfm.h5") in
  (int2std, std2int).

End Builders.
End registration.

(** ** workflows/anatomical/surfaces.py *)

Module surfaces.
Import Engine.

Definition SURFACE_INPUTS : list string :=
  ["t1w"; "t2w"; "flair"; "skullstripped_t1"; "subjects_dir"; "subject_id";
   (* Customize aseg *)
   "in_aseg"; "in_mask"].

Definition SURFACE_OUTPUTS : list string :=
  ["subjects_dir"; "subject_id"; "anat2fsnative_xfm"; "fsnative2anat_xfm"].

(** mapping of labels from FS to M-CRIB-S *)
Definition fs2mcribs : pyval :=
  VDict [
       (VInt 2, VInt 51); (VInt 3, VInt 21); (VInt 4, VInt 49); (VInt 5, VInt 0);
       (VInt 7, VInt 17); (VInt 8, VInt 17); (VInt 10, VInt 43); (VInt 11, VInt 41);
       (VInt 12, VInt 47); (VInt 13, VInt 47); (VInt 14, VInt 0); (VInt 15, VInt 0);
       (VInt 16, VInt 19); (VInt 17, VInt 1); (VInt 18, VInt 3); (VInt 26, VInt 41);
       (VInt 28, VInt 45); (VInt 31, VInt 49); (VInt 41, VInt 52); (VInt 42, VInt 20);
       (VInt 43, VInt 50); (VInt 44, VInt 0); (VInt 46, VInt 18); (VInt 47, VInt 18);
       (VInt 49, VInt 42); (VInt 50, VInt 40); (VInt 51, VInt 46); (VInt 52, VInt 46);
       (VInt 53, VInt 2); (VInt 54, VInt 4); (VInt 58, VInt 40); (VInt 60, VInt 44);
       (VInt 63, VInt 50); (VInt 253, VInt 48)
  ].

(** [niu.IdentityInterface(fields=..., **inputs)]: keywords other than
    [fields] are values for the inputs of the interface, and an input that
    is not one of the fields is a [ValueError]. *)
Definition niu_IdentityInterface (fields : list string) (inputs : list (string * pyval))
  : result interface :=
  match List.find (λ kv, negb (name_in fields kv.1)) inputs with
  | Some kv => Raise (ValueError ("Identity Interface input is not in the fields: " +:+ kv.1))
  | None => Ok (IdentityInterface fields)
  end.

(** Lines 351-389.  [inputnode] and [outputnode] are written as bare
    interfaces that are handed [name] as an input (lines 358-359), where
    every other builder writes [pe.Node(niu.IdentityInterface(...), name=...)].
    [name] is not one of the fields, so line 358 raises and the rest of the
    function is not reached: the nodes [midthickness], [save_midthickness]
    and [sync], and the connections (which would be given the two
    interfaces where nodes are expected).  A caller would embed the
    returned workflow as one node with the ports [inputnode.white],
    [inputnode.graymid], [outputnode.subjects_dir] and
    [outputnode.subject_id]. *)
Definition init_midthickness_wf (omp_nthreads : Z) (name : string) : M node :=
  inputnode ← lift (niu_IdentityInterface ["white"; "graymid"]
                      [("name", VStr "inputnode")]);
  outputnode ← lift (niu_IdentityInterface ["subject_id"; "subjects_dir"]
                       [("name", VStr "outputnode")]);
  midthickness ← pe_MapNode
    (Interface "MakeMidthickness"
       [("thickness", VBool true); ("distance", VFloat (Float 5 (-1)));
        ("out_name", VStr "midthickness")])
    "midthickness" ["in_file"] [("n_procs", VInt (Z.min omp_nthreads 12))];
  save_midthickness ← pe_Node (Interface "DataSink" [("parameterization", VBool false)])
    "save_midthickness" [];
  sync ← pe_Node
    (Interface "Function"
       [("function", VStr "_extract_fs_fields");
        ("output_names", VList [VStr "subjects_dir"; VStr "subject_id"])])
    "sync" [];
  new_node SubWorkflow (Interface "Workflow" []) name [].

(** ['fsnative' not in precomputed.get('transforms', {})] *)
Definition fsnative_missing (precomputed : gmap string dict) : bool :=
  negb (bool_decide (is_Some (default ∅ (precomputed !! "transforms") !! "fsnative"))).

Definition str_truthy (o : option string) : bool :=
  match o with Some v => negb (String.eqb v "") | None => false end.

Section Builders.
Variable ext : externals.

(** Reconstruct cortical surfaces using the M-CRIB-S pipeline. *)
Definition init_mcribs_surface_recon_wf
    (omp_nthreads : Z) (use_aseg use_mask : bool) (precomputed : gmap string dict)
    (mcribs_dir : option string) (name : string) : M Workflow :=
  if negb use_aseg then
    raise (NotImplementedError
             "A previously computed segmentation is required for the M-CRIB-S workflow.")
  else
  inputnode ← pe_Node (IdentityInterface SURFACE_INPUTS) "inputnode" [];
  outputnode ← pe_Node (IdentityInterface SURFACE_OUTPUTS) "outputnode" [];
  let workflow := pe_Workflow name in
  map_labels ← pe_Node (Interface "MapLabels" [("mappings", fs2mcribs)]) "map_labels" [];
  t2w_las ← pe_Node (Interface "ReorientImage" [("target_orientation", VStr "LAS")])
    "t2w_las" [];
  seg_las ← clone t2w_las "seg_las";
  mcribs_recon ← pe_Node
    (Interface "MCRIBReconAll"
       [("surfrecon", VBool true);
        ("surfrecon_method", VStr "Deformable");
        ("join_thresh", VFloat (Float 10 (-1)));
        ("fast_collision", VBool true);
        ("nthreads", VInt omp_nthreads)])
    "mcribs_recon" [("mem_gb", VInt 5)];
  let mcribs_recon :=
    if str_truthy mcribs_dir then
      let mcribs_recon := set_input mcribs_recon "outdir" (VStr (default "" mcribs_dir)) in
      set_kwarg mcribs_recon "config"
        (VDict [(VStr "execution",
                 VDict [(VStr "remove_unnecessary_outputs", VBool false)])])
    else mcribs_recon in
  workflow ←
    (if use_mask then
       (* If available, dilated mask and use in recon-neonatal-cortex *)
       mask_dil ← pe_Node (Interface "BinaryDilation" [("radius", VInt 3)]) "mask_dil" [];
       mask_las ← clone t2w_las "mask_las";
       connect workflow [
         (inputnode, mask_dil, ["in_mask" ~> "in_mask"]);
         (mask_dil, mask_las, ["out_mask" ~> "in_file"]);
         (mask_las, mcribs_recon, ["out_file" ~> "mask_file"])
       ]
     else mret workflow);
  mcribs_postrecon ← pe_Node
    (Interface "MCRIBReconAll"
       [("autorecon_after_surf", VBool true); ("nthreads", VInt omp_nthreads)])
    "mcribs_postrecon" [("mem_gb", VInt 5)];
  fssource ← pe_Node (Interface "FreeSurferSource" []) "fssource"
    [("run_without_submitting", VBool true)];
  midthickness_wf ← init_midthickness_wf omp_nthreads "make_midthickness_wf";
  workflow ← connect workflow [
    (inputnode, t2w_las, ["t2w" ~> "in_file"]);
    (inputnode, map_labels, ["in_aseg" ~> "in_file"]);
    (map_labels, seg_las, ["out_file" ~> "in_file"]);
    (inputnode, mcribs_recon, [
       "subjects_dir" ~> "subjects_dir";
       "subject_id" ~> "subject_id"]);
    (t2w_las, mcribs_recon, ["out_file" ~> "t2w_file"]);
    (seg_las, mcribs_recon, ["out_file" ~> "segmentation_file"]);
    (inputnode, mcribs_postrecon, [
       "subjects_dir" ~> "subjects_dir";
       "subject_id" ~> "subject_id"]);
    (mcribs_recon, mcribs_postrecon, ["mcribs_dir" ~> "outdir"]);
    (mcribs_postrecon, fssource, ["subjects_dir" ~> "subjects_dir"]);
    (inputnode, fssource, ["subject_id" ~> "inputnode.subject_id"]);
    (fssource, midthickness_wf, [
       "white" ~> "inputnode.white";
       "graymid" ~> "inputnode.graymid"]);
    (midthickness_wf, outputnode, [
       "outputnode.subjects_dir" ~> "subjects_dir";
       "outputnode.subject_id" ~> "subject_id"])
  ];
  workflow ←
    (if fsnative_missing precomputed then
       fsnative2anat_xfm ← pe_Node
         (Interface "RobustRegister" [("auto_sens", VBool true); ("est_int_scale", VBool true)])
         "fsnative2anat_xfm" [];
       anat2fsnative_xfm ← pe_Node
         (Interface "LTAConvert" [("out_lta", VBool true); ("invert", VBool true)])
         "anat2fsnative_xfm" [];
       connect workflow [
         (inputnode, fsnative2anat_xfm, ["t2w" ~> "target_file"]);
         (fssource, fsnative2anat_xfm, ["T2" ~> "source_file"]);
         (fsnative2anat_xfm, outputnode, ["out_reg_file" ~> "fsnative2anat_xfm"]);
         (fsnative2anat_xfm, anat2fsnative_xfm, ["out_reg_file" ~> "in_lta"]);
         (anat2fsnative_xfm, outputnode, ["out_lta" ~> "anat2fsnative_xfm"])
       ]
     else mret workflow);
  mret workflow.

(** [str(tf.get(...)) for hemi in 'LR'] *)
Definition per_hemi (hemis : list string) (get : string → result pyval)
  : M (list pyval) :=
  lift (mapM (λ hemi, v ← get hemi; mret (VStr (py_str ext v))) hemis).

(** Generate GIFTI registration files to dhcp (42-week) space. *)
Definition init_mcribs_dhcp_wf (name : string) : M Workflow :=
  let workflow := pe_Workflow name in
  inputnode ← pe_Node (IdentityInterface ["sphere_reg"; "sulc"]) "inputnode" [];
  outputnode ← pe_Node (IdentityInterface ["sphere_reg_fsLR"]) "outputnode" [];
  project_unproject ← pe_MapNode (Interface "SurfaceSphereProjectUnproject" [])
    "project_unproject" ["sphere_in"; "sphere_project_to"; "sphere_unproject_from"] [];
  sphere_project_to ← per_hemi ["L"; "R"] (λ hemi,
    get_template ext "fsaverage"
      [("density", VStr "41k"); ("hemi", VStr hemi); ("desc", VNone);
       ("suffix", VStr "sphere"); ("extension", VStr ".surf.gii")] ∅);
  let project_unproject :=
    set_input project_unproject "sphere_project_to" (VList sphere_project_to) in
  sphere_unproject_from ← per_hemi ["L"; "R"] (λ hemi,
    get_template ext "dhcpAsym"
      [("space", VStr "fsaverage"); ("hemi", VStr hemi); ("density", VStr "41k");
       ("desc", VStr "reg"); ("suffix", VStr "sphere"); ("extension", VStr ".surf.gii");
       ("raise_empty", VBool true)] ∅);
  let project_unproject :=
    set_input project_unproject "sphere_unproject_from" (VList sphere_unproject_from) in
  workflow ← connect workflow [
    (inputnode, project_unproject, ["sphere_reg" ~> "sphere_in"]);
    (project_unproject, outputnode, ["sphere_out" ~> "sphere_reg_fsLR"])
  ];
  mret workflow.

Definition init_infantfs_surface_recon_wf
    (age_months : Z) (precomputed : gmap string dict) (omp_nthreads : Z)
    (use_aseg : bool) (name : string) : M Workflow :=
  let workflow := pe_Workflow name in
  inputnode ← pe_Node (IdentityInterface SURFACE_INPUTS) "inputnode" [];
  outputnode ← pe_Node (IdentityInterface SURFACE_OUTPUTS) "outputnode" [];
  gen_recon_outdir ← pe_Node (Interface "Function" [("function", VStr "_gen_recon_dir")])
    "gen_recon_outdir" [];
  (* inject the intensity-normalized skull-stripped t1w from the brain
     extraction workflow *)
  recon ← pe_Node (Interface "InfantReconAll" [("age", VInt age_months)]) "reconall" [];
  workflow ←
    (if use_aseg then connect workflow [(inputnode, recon, ["in_aseg" ~> "aseg_file"])]
     else mret workflow);
  fssource ← pe_Node (Interface "FreeSurferSource" []) "fssource"
    [("run_without_submitting", VBool true)];
  midthickness_wf ← init_midthickness_wf omp_nthreads "make_midthickness_wf";
  workflow ← connect workflow [
    (inputnode, gen_recon_outdir, [
       "subjects_dir" ~> "subjects_dir";
       "subject_id" ~> "subject_id"]);
    (inputnode, recon, [
       "skullstripped_t1" ~> "mask_file";
       "subject_id" ~> "subject_id"]);
    (gen_recon_outdir, recon, [
       "out" ~> "outdir"]);
    (recon, fssource, [
       "subject_id" ~> "subject_id";
       (OutPort "outdir" (Some "_parent"), "subjects_dir")]);
    (fssource, midthickness_wf, [
       "white" ~> "inputnode.white";
       "graymid" ~> "inputnode.graymid"]);
    (midthickness_wf, outputnode, [
       "outputnode.subjects_dir" ~> "subjects_dir";
       "outputnode.subject_id" ~> "subject_id"])
  ];
  workflow ←
    (if fsnative_missing precomputed then
       fsnative2anat_xfm ← pe_Node
         (Interface "RobustRegister" [("auto_sens", VBool true); ("est_int_scale", VBool true)])
         "fsnative2anat_xfm" [];
       anat2fsnative_xfm ← pe_Node
         (Interface "LTAConvert" [("out_lta", VBool true); ("invert", VBool true)])
         "anat2fsnative_xfm" [];
       connect workflow [
         (inputnode, fsnative2anat_xfm, ["skullstripped_t1" ~> "target_file"]);
         (fssource, fsnative2anat_xfm, [
            (OutPort "norm" (Some "_replace_mgz"), "source_file")]);
         (fsnative2anat_xfm, anat2fsnative_xfm, ["out_reg_file" ~> "in_lta"]);
         (fsnative2anat_xfm, outputnode, [
            "out_reg_file" ~> "fsnative2anat_xfm"]);
         (anat2fsnative_xfm, outputnode, [
            "out_lta" ~> "anat2fsnative_xfm"])
       ]
     else mret workflow);
  mret workflow.

(** [node.inputs.field = files] for an input that takes existing files
    only, as [new_sphere] of [SurfaceResample] does (its declaration is
    outside the modelled files): an entry that does not name an existing
    file is a [TraitError] at the assignment. *)
Definition set_existing_files (n : node) (field : string) (files : list pyval) : M node :=
  if forallb (λ v, match v with VStr path => file_exists ext path | _ => false end) files
  then mret (set_input n field (VList files))
  else raise (TraitError ("The '" +:+ field +:+ "' trait must be a list of existing files.")).

(** Resample subject midthickness surface to specified density. *)
Definition init_resample_midthickness_dhcp_wf
    (grayord_density : string) (name : string) : M Workflow :=
  let workflow := pe_Workflow name in
  let fslr_density := if String.eqb grayord_density "91k" then "32k" else "59k" in
  inputnode ← pe_Node (IdentityInterface ["midthickness"; "sphere_reg_fsLR"])
    "inputnode" [];
  outputnode ← pe_Node (IdentityInterface ["midthickness_fsLR"]) "outputnode" [];
  resampler ← pe_MapNode (Interface "SurfaceResample" [("method", VStr "BARYCENTRIC")])
    "resampler" ["surface_in"; "current_sphere"; "new_sphere"] [];
  new_sphere ← per_hemi ["L"; "R"] (λ hemi,
    get_template ext "dhcpAsym"
      [("cohort", VStr "42"); ("density", VStr fslr_density); ("suffix", VStr "sphere");
       ("hemi", VStr hemi); ("space", VNone); ("extension", VStr ".surf.gii")] ∅);
  resampler ← set_existing_files resampler "new_sphere" new_sphere;
  workflow ← connect workflow [
    (inputnode, resampler, [
       "midthickness" ~> "surface_in";
       "sphere_reg_fsLR" ~> "current_sphere"]);
    (resampler, outputnode, ["surface_out" ~> "midthickness_fsLR"])
  ];
  mret workflow.

End Builders.
End surfaces.

(** ** workflows/anatomical/brain_extraction.py *)

Module brain_extraction.
Import Engine.

Definition _pop (in_files : pyval) : result pyval :=
  match in_files with
  | VList l | VTuple l =>
      match l with
      | v :: _ => Ok v
      | [] => Raise IndexError
      end
  | _ => Ok in_files
  end.

(** [v == s] for a string literal [s]. *)
Definition eq_str (v : pyval) (s : string) : bool :=
  match v with VStr x => String.eqb x s | _ => false end.

Section Builders.
Variable ext : externals.

(** [get_template(template, **explicit, **template_specs)]: a keyword
    given twice is a [TypeError] at the call. *)
Definition call_get_template (template : string) (explicit : list (string * pyval))
    (template_specs : dict) : M pyval :=
  match List.find (λ kv, bool_decide (is_Some (template_specs !! kv.1))) explicit with
  | Some kv => raise (TypeError ("got multiple values for keyword argument " +:+ kv.1))
  | None => lift (get_template ext template explicit template_specs)
  end.

(** Lines 89-99, "handle template specifics".  [template_specs] is
    [None] or a reference to the caller's dict; the result is the
    reference the rest of the function reads from. *)
Definition template_specifics (age_months : option Z) (sloppy : bool)
    (skull_strip_template : string) (template_specs : option nat) : M nat :=
  (* template_specs = template_specs or {} *)
  template_specs ←
    match template_specs with
    | None => alloc_dict ∅
    | Some ref =>
        d ← read_dict ref;
        if dict_truthy d then mret ref else alloc_dict ∅
    end;
  _ ← (if String.eqb skull_strip_template "MNIInfant" then
         dict_setitem template_specs "resolution" (VInt (if sloppy then 2 else 1))
       else mret ());
  d ← read_dict template_specs;
  _ ← (if negb (truthy (dict_get d "cohort")) then
         match age_months with
         | None =>
             raise (KeyError ("Age or cohort for " +:+ skull_strip_template
                              +:+ " must be provided!"))
         | Some age_months =>
             cohort ← lift (cohort_by_months ext skull_strip_template age_months);
             dict_setitem template_specs "cohort" cohort
         end
       else mret ());
  mret template_specs.

(** Lines 101-124: the template files looked up with the resolved
    specifications: target, brain mask, registration mask. *)
Definition template_files (skull_strip_template : string) (specs : dict)
  : M (pyval * pyval * pyval) :=
  tpl_target_path ← call_get_template skull_strip_template
    [("suffix", VStr "T1w"); ("desc", VNone)] specs;
  if negb (truthy tpl_target_path) then
    raise (RuntimeError ("An instance of template <tpl-" +:+ skull_strip_template
                         +:+ "> with T1w suffix could not be found."))
  else
  probseg ← call_get_template skull_strip_template
    [("label", VStr "brain"); ("suffix", VStr "probseg")] specs;
  tpl_brainmask_path ←
    (if truthy probseg then mret probseg
     else call_get_template skull_strip_template
            [("desc", VStr "brain"); ("suffix", VStr "mask")] specs);
  tpl_regmask_path ← call_get_template skull_strip_template
    [("label", VStr "BrainCerebellumExtraction"); ("suffix", VStr "mask")] specs;
  mret (tpl_target_path, tpl_brainmask_path, tpl_regmask_path).

(** Lines 126-271, "main workflow". *)
Definition main_workflow
    (tpl_target_path tpl_brainmask_path tpl_regmask_path : pyval)
    (ants_affine_init : pyval) (bspline_fitting_distance : Z) (sloppy : bool)
    (mem_gb : pyfloat) (name : string) (omp_nthreads : option Z) : M Workflow :=
  let workflow := pe_Workflow name in
  inputnode ← pe_Node (IdentityInterface ["in_t2w"]) "inputnode" [];
  outputnode ← pe_Node
    (IdentityInterface ["t2w_preproc"; "t2w_brain"; "out_mask"; "out_probmap"])
    "outputnode" [];
  (* Ensure template comes with a range of intensities ANTs will like *)
  target ← lift (_pop tpl_target_path);
  clip_tmpl ← pe_Node (Interface "IntensityClip" [("in_file", target)]) "clip_tmpl" [];
  (* Generate laplacian registration targets *)
  lap_tmpl ← pe_Node
    (Interface "ImageMath" [("operation", VStr "Laplacian"); ("op2", VStr "0.4 1")])
    "lap_tmpl" [];
  lap_t2w ← pe_Node
    (Interface "ImageMath" [("operation", VStr "Laplacian"); ("op2", VStr "0.4 1")])
    "lap_t2w" [];
  norm_lap_tmpl ← pe_Node (Interface "IntensityClip" []) "norm_lap_tmpl" [];
  norm_lap_t2w ← pe_Node (Interface "IntensityClip" []) "norm_lap_t2w" [];
  (* Merge image nodes *)
  mrg_tmpl ← pe_Node (Interface "Merge" [("numinputs", VInt 2)]) "mrg_tmpl"
    [("run_without_submitting", VBool true)];
  mrg_t2w ← pe_Node (Interface "Merge" [("numinputs", VInt 2)]) "mrg_t2w"
    [("run_without_submitting", VBool true)];
  (* Set up initial spatial normalization *)
  let ants_params := if sloppy then "testing" else "precise" in
  norm ← pe_Node
    (Interface "Registration"
       [("from_file", pkgr_fn ext "niworkflows.data"
                        ("antsBrainExtraction_" +:+ ants_params +:+ ".json"))])
    "norm" [("n_procs", py_int_opt omp_nthreads); ("mem_gb", VFloat mem_gb)];
  let norm := set_input norm "float" (VBool sloppy) in
  let norm :=
    if truthy tpl_regmask_path then set_input norm "fixed_image_masks" tpl_regmask_path
    else norm in
  map_mask_t2w ← pe_Node
    (Interface "ApplyTransforms" [("interpolation", VStr "Gaussian"); ("float", VBool true)])
    "map_mask_t2w" [("mem_gb", VInt 1)];
  (* map template brainmask to t2w space *)
  let map_mask_t2w :=
    set_input map_mask_t2w "input_image" (VStr (py_str ext tpl_brainmask_path)) in
  thr_t2w_mask ← pe_Node (Interface "Binarize" [("thresh_low", VFloat (Float 80 (-2)))])
    "thr_t2w_mask" [];
  bspline_grid ← pe_Node (Interface "Function" [("function", VStr "_bspline_distance")])
    "bspline_grid" [];
  (* Refine INU correction *)
  final_n4 ← pe_Node (N4BiasFieldCorrection bspline_fitting_distance) "final_n4"
    [("n_procs", py_int_opt omp_nthreads)];
  final_clip ← pe_Node
    (Interface "IntensityClip"
       [("p_min", VFloat (Float 50 (-1))); ("p_max", VFloat (Float 980 (-1)))])
    "final_clip" [];
  apply_mask ← pe_Node (Interface "ApplyMask" []) "apply_mask" [];
  workflow ← connect workflow [
    (inputnode, bspline_grid, ["in_t2w" ~> "in_file"]);
    (inputnode, final_n4, ["in_t2w" ~> "input_image"]);
    (* 1. Massage T2w *)
    (inputnode, mrg_t2w, ["in_t2w" ~> "in1"]);
    (inputnode, lap_t2w, ["in_t2w" ~> "op1"]);
    (inputnode, map_mask_t2w, ["in_t2w" ~> "reference_image"]);
    (lap_t2w, norm_lap_t2w, ["output_image" ~> "in_file"]);
    (norm_lap_t2w, mrg_t2w, ["out_file" ~> "in2"]);
    (* 2. Prepare template *)
    (clip_tmpl, lap_tmpl, ["out_file" ~> "op1"]);
    (lap_tmpl, norm_lap_tmpl, ["output_image" ~> "in_file"]);
    (clip_tmpl, mrg_tmpl, ["out_file" ~> "in1"]);
    (norm_lap_tmpl, mrg_tmpl, ["out_file" ~> "in2"]);
    (* 3. Set normalization node inputs *)
    (mrg_tmpl, norm, ["out" ~> "fixed_image"]);
    (mrg_t2w, norm, ["out" ~> "moving_image"]);
    (* 4. Map template brainmask into T2w space *)
    (norm, map_mask_t2w, [
       "reverse_transforms" ~> "transforms";
       "reverse_invert_flags" ~> "invert_transform_flags"]);
    (map_mask_t2w, thr_t2w_mask, ["output_image" ~> "in_file"]);
    (thr_t2w_mask, apply_mask, ["out_mask" ~> "in_mask"]);
    (final_n4, apply_mask, ["output_image" ~> "in_file"]);
    (* 5. Refine T2w INU correction with brain mask *)
    (bspline_grid, final_n4, ["out" ~> "args"]);
    (map_mask_t2w, final_n4, ["output_image" ~> "weight_image"]);
    (final_n4, final_clip, ["output_image" ~> "in_file"]);
    (* 9. Outputs *)
    (final_clip, outputnode, ["out_file" ~> "t2w_preproc"]);
    (map_mask_t2w, outputnode, ["output_image" ~> "out_probmap"]);
    (thr_t2w_mask, outputnode, ["out_mask" ~> "out_mask"]);
    (apply_mask, outputnode, ["out_file" ~> "t2w_brain"])
  ];
  workflow ←
    (if truthy ants_affine_init then
       let metric :=
         if eq_str ants_affine_init "random" then
           VTuple [VStr "Mattes"; VInt 32; VStr "Random"; VFloat (Float 2 (-1))]
         else VTuple [VStr "Mattes"; VInt 32; VStr "Regular"; VFloat (Float 2 (-1))] in
       let search_grid :=
         if eq_str ants_affine_init "search" then
           VTuple [VInt 20; VTuple [VInt 20; VInt 40; VInt 40]]
         else VTuple [VInt 40; VTuple [VInt 0; VInt 40; VInt 40]] in
       let ants_kwargs :=
         [("metric", metric);
          ("transform", VTuple [VStr "Affine"; VFloat (Float 1 (-1))]);
          ("search_factor", VTuple [VInt 20; VFloat (Float 12 (-2))]);
          ("principal_axes", VBool false);
          ("convergence", VTuple [VInt 10; VFloat (Float 1 (-6)); VInt 10]);
          ("search_grid", search_grid);
          ("verbose", VBool true)] in
       init_aff ← pe_Node (Interface "AI" ants_kwargs) "init_aff"
         [("n_procs", py_int_opt omp_nthreads)];
       init_aff ←
         (if truthy tpl_regmask_path then
            regmask ← lift (_pop tpl_regmask_path);
            mret (set_input init_aff "fixed_image_mask" regmask)
          else mret init_aff);
       connect workflow [
         (clip_tmpl, init_aff, ["out_file" ~> "fixed_image"]);
         (inputnode, init_aff, ["in_t2w" ~> "moving_image"]);
         (init_aff, norm, ["output_transform" ~> "initial_moving_transform"])
       ]
     else mret workflow);
  mret workflow.

(** Build an atlas-based brain extraction pipeline for infant T2w MRI
    data. *)
Definition init_infant_brain_extraction_wf
    (age_months : option Z) (ants_affine_init : pyval) (bspline_fitting_distance : Z)
    (sloppy : bool) (skull_strip_template : string) (template_specs : option nat)
    (mem_gb : pyfloat) (name : string) (omp_nthreads : option Z) : M Workflow :=
  (* handle template specifics *)
  template_specs ← template_specifics age_months sloppy skull_strip_template template_specs;
  specs ← read_dict template_specs;
  '(tpl_target_path, tpl_brainmask_path, tpl_regmask_path) ←
    template_files skull_strip_template specs;
  (* main workflow *)
  main_workflow tpl_target_path tpl_brainmask_path tpl_regmask_path
    ants_affine_init bspline_fitting_distance sloppy mem_gb name omp_nthreads.

End Builders.
End brain_extraction.

(** ** workflows/anatomical/preproc.py *)

Module preproc.
Import Engine.

(** Line 1, [import nipype.engine.pipeline as pe].  nipype has no module
    [nipype.engine]; its engine is [nipype.pipeline.engine], which is what
    the other builders import.  Importing [preproc] therefore raises, and
    [init_preproc_anat_wf] can be neither imported nor called. *)
Definition import_preproc : result unit :=
  Raise (ModuleNotFoundError "No module named 'nipype.engine'").

(** Polish up raw anatomical data. *)
Definition init_preproc_anat_wf (bspline_fitting_distance : Z) (name : string)
  : M Workflow :=
  _ ← lift import_preproc;
  let wf := pe_Workflow name in
  inputnode ← pe_Node (IdentityInterface ["in_anat"]) "inputnode" [];
  outputnode ← pe_Node (IdentityInterface ["anat_preproc"]) "outputnode" [];
  clip ← pe_Node
    (Interface "IntensityClip"
       [("p_min", VFloat (Float 100 (-1))); ("p_max", VFloat (Float 995 (-1)))]) "clip" [];
  denoise ← pe_Node
    (Interface "DenoiseImage" [("dimension", VInt 3); ("noise_model", VStr "Rician")])
    "denoise" [];
  n4_correct ← pe_Node (N4BiasFieldCorrection bspline_fitting_distance) "n4_correct" [];
  final_clip ← pe_Node
    (Interface "IntensityClip"
       [("p_min", VFloat (Float 50 (-1))); ("p_max", VFloat (Float 995 (-1)))])
    "final_clip" [];
  wf ← connect wf [
    (* 1. Massage T2w *)
    (inputnode, clip, ["in_anat" ~> "in_file"]);
    (clip, denoise, ["out_file" ~> "input_image"]);
    (denoise, n4_correct, ["output_image" ~> "input_image"]);
    (n4_correct, final_clip, ["output_image" ~> "in_file"]);
    (final_clip, outputnode, ["out_file" ~> "anat_preproc"])
  ];
  mret wf.
End preproc.

(** ** workflows/bold/t2s.py *)

Module t2s.
Import Engine.

(** [T2SMap(echo_times=...)].  The interface (nibabies/interfaces/multiecho.py,
    outside the modelled files) takes a list of at least three echo times;
    a shorter list is a [TraitError] when the interface is built. *)
Definition T2SMap (echo_times : list pyfloat) : result interface :=
  if Nat.ltb (length echo_times) 3 then
    Raise (TraitError "The 'echo_times' trait must be a list of at least 3 items.")
  else Ok (Interface "T2SMap" [("echo_times", VList (map VFloat echo_times))]).

(** Combine multiple echos of ME-EPI. *)
Definition init_bold_t2s_wf (echo_times : list pyfloat) (mem_gb : pyfloat)
    (omp_nthreads : Z) (name : string) : M Workflow :=
  let workflow := pe_Workflow name in
  inputnode ← pe_Node (IdentityInterface ["bold_file"; "bold_mask"]) "inputnode" [];
  outputnode ← pe_Node (IdentityInterface ["bold"]) "outputnode" [];
  t2smap ← lift (T2SMap echo_times);
  t2smap_node ← pe_Node t2smap "t2smap_node" [];
  workflow ← connect workflow [
    (inputnode, t2smap_node, ["bold_file" ~> "in_files";
                              "bold_mask" ~> "mask_file"]);
    (t2smap_node, outputnode, ["optimal_comb" ~> "bold"])
  ];
  mret workflow.
End t2s.

(** ** Running an assembled graph

    The scheduler and the map-node replication of the engine, and what the
    interfaces of [init_concat_registrations_wf] do when run. *)

Module Scheduler.
Import Engine.
#[local] Open Scope list_scope.

Definition bindings : Type := list (string * pyval).

Definition lookup_binding (key : string) (b : bindings) : option pyval :=
  snd <$> List.find (λ kv, String.eqb kv.1 key) b.

(** What an interface instance does when run: the names of its outputs,
    its outputs for given inputs, and the functions that edges may apply
    to a value on its way. *)
Record semantics := {
  output_names : interface → list string;
  run_interface : interface → bindings → result bindings;
  run_modifier : string → pyval → result pyval
}.

Inductive status :=
| Done (outputs : bindings)
| Failed (e : exn)
| Unreachable.

Definition env : Type := list (string * status).

Definition status_of (e : env) (name : string) : option status :=
  snd <$> List.find (λ kv, String.eqb kv.1 name) e.

Definition inbound_edges (wf : Workflow) (name : string) : list edge :=
  List.filter (λ ed, String.eqb (dst ed) name) (edges wf).

(** Modelled from the spec: the engine's scheduler, whose code is not
    among the modelled files.  A topological order of the nodes; insertion
    order breaks ties. *)
Fixpoint schedule_from (fuel : nat) (wf : Workflow) (done : list string) : list node :=
  match fuel with
  | O => []
  | S fuel' =>
      match List.find
              (λ n, negb (name_in done (node_name n))
                    && forallb (λ ed, name_in done (src ed))
                         (inbound_edges wf (node_name n)))
              (nodes wf) with
      | Some n => n :: schedule_from fuel' wf (done ++ [node_name n])
      | None => []
      end
  end.

Definition schedule (wf : Workflow) : result (list node) :=
  let order := schedule_from (length (nodes wf)) wf [] in
  if Nat.eqb (length order) (length (nodes wf)) then Ok order
  else Raise CyclicGraphError.

(** A single value given for a list input stands for the one-element
    list. *)
Definition ensure_list (v : pyval) : list pyval :=
  match v with
  | VList l => l
  | _ => [v]
  end.

(** The per-instance values of parallel lists, drawn positionally. *)
Fixpoint rows (columns : list (list pyval)) : list (list pyval) :=
  match columns with
  | [] => []
  | c :: cs =>
      match cs with
      | [] => map (λ x, [x]) c
      | _ :: _ => zip_with cons c (rows cs)
      end
  end.

Section Run.
Variable sem : semantics.

(** Modelled from the spec: the engine's count-driven replication
    ([pe.MapNode] run), whose code is not among the modelled files.  One
    instance of the interface per element of the iterated inputs, which
    must agree in length; each output is the list of the instances'
    outputs, in order. *)
Definition run_mapnode (n : node) (iterfield : list string) (ins : bindings)
  : result bindings :=
  columns ← mapM (λ f,
               match lookup_binding f ins with
               | Some v => Ok (ensure_list v)
               | None => Raise (ValueError ("Input " +:+ f
                           +:+ " was not set but it is listed in iterfields."))
               end) iterfield;
  let nitems := length (List.hd [] columns) in
  if forallb (λ c, Nat.eqb (length c) nitems) columns then
    let fixed := List.filter (λ kv, negb (name_in iterfield kv.1)) ins in
    outs ← mapM (λ row, run_interface sem (node_interface n) (zip iterfield row ++ fixed))
             (rows columns);
    mret (map (λ key, (key, VList (map (λ o, default VNone (lookup_binding key o)) outs)))
            (output_names sem (node_interface n)))
  else Raise (ArityMismatchError (node_name n)).

Definition upstream_done (e : env) (ed : edge) : bool :=
  match status_of e (src ed) with
  | Some (Done _) => true
  | _ => false
  end.

(** The value an edge delivers, if its source produced that output. *)
Definition arriving (e : env) (ed : edge) : result (option (string * pyval)) :=
  match status_of e (src ed) with
  | Some (Done outs) =>
      match lookup_binding (out_field (src_port ed)) outs with
      | Some v =>
          match modifier (src_port ed) with
          | Some f => v' ← run_modifier sem f v; mret (Some (dst_port ed, v'))
          | None => mret (Some (dst_port ed, v))
          end
      | None => mret None
      end
  | _ => mret None
  end.

(** Modelled from the spec: how the engine runs one node.  It is
    unreachable when something upstream failed;
    otherwise its inputs are the connected values, then the values given
    to the workflow (for [inputnode]), then the inputs set at assembly. *)
Definition run_node (wf : Workflow) (given : bindings) (e : env) (n : node) : status :=
  let inb := inbound_edges wf (node_name n) in
  if forallb (upstream_done e) inb then
    match
      (connected ← mapM (arriving e) inb;
       let ins := omap id connected
                  ++ (if String.eqb (node_name n) "inputnode" then given else [])
                  ++ inputs n in
       match kind n with
       | MapNode iterfield => run_mapnode n iterfield ins
       | _ => run_interface sem (node_interface n) ins
       end)
    with
    | Ok outs => Done outs
    | Raise err => Failed err
    end
  else Unreachable.

Definition step (wf : Workflow) (given : bindings) (e : env) (n : node) : env :=
  e ++ [(node_name n, run_node wf given e n)].

(** Modelled from the spec: a run of the graph.  Every node runs once, in
    dependency order.  A failure makes the nodes downstream unreachable;
    independent branches still run. *)
Definition run (wf : Workflow) (given : bindings) : result env :=
  order ← schedule wf;
  mret (fold_left (step wf given) order []).

Definition output_of (r : result env) (name field : string) : option pyval :=
  match r with
  | Ok e =>
      match status_of e name with
      | Some (Done outs) => lookup_binding field outs
      | _ => None
      end
  | Raise _ => None
  end.

Definition node_status (r : result env) (name : string) : option status :=
  match r with
  | Ok e => status_of e name
  | Raise _ => None
  end.
End Run.

(** *** The interfaces of [init_concat_registrations_wf] *)

(** What the external interfaces compute: they are parameters of the
    development. *)
Record operations := {
  TemplateDesc : pyval → pyval * pyval;            (* template -> name, spec *)
  TemplateFlowSelect : pyval → pyval → pyval → pyval * pyval;
    (* template, template_spec, resolution -> t1w_file, brain_mask *)
  _fmt_cohort : pyval → pyval → pyval * pyval;     (* template, spec -> template, spec *)
  (* the composite written by antsApplyTransforms for the given transform
     arguments and reference image *)
  antsApplyTransforms_out : string → pyval → pyval
}.

Definition as_str (v : pyval) : result string :=
  match v with
  | VStr x => Ok x
  | _ => Raise (TypeError "expected a string")
  end.

Definition as_bool (v : pyval) : result bool :=
  match v with
  | VBool b => Ok b
  | _ => Raise (TypeError "expected a bool")
  end.

Definition required (field : string) (ins : bindings) : result pyval :=
  match lookup_binding field ins with
  | Some v => Ok v
  | None => Raise (ValueError (field +:+ " is not set"))
  end.

(** [niu.Merge]: the defined inputs [in1], [in2], ... in order, lists
    flattened. *)
Definition merge_inputs (names : list string) (ins : bindings) : list pyval :=
  concat (map (λ name, match lookup_binding name ins with
                       | Some v => ensure_list v
                       | None => []
                       end) names).

Definition merge_names (numinputs : pyval) : list string :=
  match numinputs with
  | VInt z => take (Z.to_nat z) ["in1"; "in2"; "in3"; "in4"; "in5"; "in6"; "in7"; "in8"; "in9"]
  | _ => []
  end.

Section Interfaces.
Variable ext : externals.
Variable ops : operations.

(** [ConcatXFM] run: the transforms argument comes from
    [_get_transform_filenames]. *)
Definition run_ConcatXFM (ins : bindings) : result bindings :=
  transforms ← required "transforms" ins;
  transforms ← mapM as_str (ensure_list transforms);
  reference_image ← required "reference_image" ins;
  flags ← match lookup_binding "invert_transform_flags" ins with
          | Some v => Some <$> mapM as_bool (ensure_list v)
          | None => Ok None
          end;
  args ← ConcatXFM._get_transform_filenames transforms flags;
  mret [("out_xfm", antsApplyTransforms_out ops args reference_image)].

Definition run_Function (kwargs ins : bindings) : result bindings :=
  match lookup_binding "function" kwargs with
  | Some (VStr "_load_intermediate_xfms") =>
      intermediate ← required "intermediate" ins;
      intermediate ← as_str intermediate;
      std ← required "std" ins;
      std ← as_str std;
      let '(int2std, std2int) :=
        registration._load_intermediate_xfms ext intermediate std in
      mret [("int2std_xfm", VStr int2std); ("std2int_xfm", VStr std2int)]
  | Some (VStr "_fmt_cohort") =>
      template ← required "template" ins;
      spec ← required "spec" ins;
      let '(template, spec) := _fmt_cohort ops template spec in
      mret [("template", template); ("spec", spec)]
  | _ => Raise (RuntimeError "function not modelled")
  end.

Definition nibabies_run (i : interface) (ins : bindings) : result bindings :=
  match i with
  | IdentityInterface fields =>
      Ok (omap (λ f, pair f <$> lookup_binding f ins) fields)
  | Interface "Function" kwargs => run_Function kwargs ins
  | Interface "TemplateDesc" _ =>
      template ← required "template" ins;
      let '(name, spec) := TemplateDesc ops template in
      mret [("name", name); ("spec", spec)]
  | Interface "TemplateFlowSelect" kwargs =>
      template ← required "template" ins;
      template_spec ← required "template_spec" ins;
      let '(t1w_file, brain_mask) :=
        TemplateFlowSelect ops template template_spec
          (default VNone (lookup_binding "resolution" kwargs)) in
      mret [("t1w_file", t1w_file); ("brain_mask", brain_mask)]
  | Interface "Merge" kwargs =>
      Ok [("out", VList (merge_inputs
                           (merge_names (default VNone (lookup_binding "numinputs" kwargs)))
                           ins))]
  | Interface "ConcatXFM" _ => run_ConcatXFM ins
  | Interface _ _ => Raise (RuntimeError "interface not modelled")
  end.

Definition nibabies_outputs (i : interface) : list string :=
  match i with
  | IdentityInterface fields => fields
  | Interface "Function" kwargs =>
      match lookup_binding "output_names" kwargs with
      | Some (VList names) => omap (λ v, match v with VStr x => Some x | _ => None end) names
      | _ => ["out"]
      end
  | Interface "TemplateDesc" _ => ["name"; "spec"]
  | Interface "TemplateFlowSelect" _ => ["t1w_file"; "brain_mask"]
  | Interface "Merge" _ => ["out"]
  | Interface "ConcatXFM" _ => ["out_xfm"]
  | Interface _ _ => []
  end.

Definition nibabies_semantics : semantics :=
  {| output_names := nibabies_outputs;
     run_interface := nibabies_run;
     run_modifier := λ f v, Raise (RuntimeError "modifier not modelled") |}.
End Interfaces.
End Scheduler.

(** * Vocabulary of the properties *)

Section Vocabulary.
Import Engine.

(** A build session in which no engine object exists yet; [h] is the heap
    of dicts the caller holds. *)
Definition fresh (h : list dict) : build_state := {| instantiated := []; dicts := h |}.

Definition instantiated_named (s : build_state) (name : string) : bool :=
  name_in (map node_name (instantiated s)) name.

(** The nodes of the three mask strategies of [init_coregistration_wf]. *)
Definition mask_branches : list (list string) :=
  [ ["t2w_masker"]; ["map_mask"; "thr_mask"]; ["map_precomp_mask"] ].

(** The fields declared on the [outputnode] a builder created. *)
Definition created_outputs (s : build_state) : list string :=
  match List.find (λ n, String.eqb (node_name n) "outputnode") (instantiated s) with
  | Some n => match node_interface n with
              | IdentityInterface fields => fields
              | Interface _ _ => []
              end
  | None => []
  end.

Definition inbound_count (wf : Workflow) (field : string) : nat :=
  length (inbound wf "outputnode" field).

(** The additive-branch rule: the output fields owned by the additive
    branches whose guard is off are absent. *)
Definition absent_outputs (branches : list (bool * list string)) : list string :=
  concat (map snd (List.filter (λ b, negb b.1) branches)).

(** A declared output field is either absent by the additive rule, and
    then receives nothing, or receives exactly one connection. *)
Definition output_ok (wf : Workflow) (absent : list string) (field : string) : bool :=
  if name_in absent field then Nat.eqb (inbound_count wf field) 0
  else Nat.eqb (inbound_count wf field) 1.

(** The builder returned a graph, and no declared output dangles. *)
Definition outputs_ok (r : result Workflow * build_state) (absent : list string) : bool :=
  match r with
  | (Ok wf, s') => forallb (output_ok wf absent) (created_outputs s')
  | (Raise _, _) => false
  end.

(** The same for a builder that may refuse its configuration. *)
Definition outputs_ok_if_built (r : result Workflow * build_state) (absent : list string)
  : bool :=
  match r with
  | (Ok wf, s') => forallb (output_ok wf absent) (created_outputs s')
  | (Raise _, _) => true
  end.

(** An additive branch of [init_coregister_derivatives_wf] is present:
    its node is in the graph and its [output_image] is the one connection
    of the output field [field]. *)
Definition branch_present (wf : Workflow) (node field : string) : bool :=
  has_node_named wf node
  && has_edge wf node "output_image" "outputnode" field
  && Nat.eqb (inbound_count wf field) 1.

(** The graph a successful build returned. *)
Definition built (r : result Workflow * build_state) : Workflow :=
  match r.1 with
  | Ok wf => wf
  | Raise _ => pe_Workflow ""
  end.

(** The edges touching a node. *)
Definition edges_at (wf : Workflow) (name : string) : list edge :=
  List.filter (λ e, String.eqb (src e) name || String.eqb (dst e) name) (edges wf).

(** Calling a builder twice in the same session, the second call starting
    where the first one stopped. *)
Definition run_twice {A} (m : M A) (s : build_state) : result A * result A :=
  let '(r1, s1) := m s in
  let '(r2, _) := m s1 in
  (r1, r2).

Definition same_structure (rr : result Workflow * result Workflow) : Prop :=
  match rr with
  | (Ok w1, Ok w2) => structure w1 = structure w2
  | (Raise e1, Raise e2) => e1 = e2
  | _ => False
  end.

(** Stand-ins for the external collaborators, to run the builders on
    concrete inputs: every template file exists and the cohort of an
    infant is their age in months. *)
Definition sample_externals : externals :=
  {| get_file := λ pkg path, VStr (pkg +:+ "/" +:+ path);
     pkgr_fn := λ pkg path, VStr (pkg +:+ "/" +:+ path);
     get_template := λ template explicit specs, Ok (VStr ("tpl-" +:+ template));
     cohort_by_months := λ template months, Ok (VInt months);
     py_str := λ v, match v with VStr x => x | _ => "" end;
     load_readable := λ path, "nibabies/data/" +:+ path;
     get_metadata := λ template, Ok {["Name" := VStr template]};
     file_exists := λ path, true;
     DEFAULT_MEMORY_MIN_GB := Float 1 (-2) |}.

(** The dict the caller passed as [template_specs] ([None] reads as no
    entries). *)
Definition caller_specs (s : build_state) (template_specs : option nat) : dict :=
  match template_specs with
  | Some ref => default ∅ (dicts s !! ref)
  | None => ∅
  end.

(** The dict [template_specifics] works on: the caller's own when it is a
    non-empty dict, a new one otherwise. *)
Definition uses_callers_dict (s : build_state) (template_specs : option nat) : bool :=
  match template_specs with
  | Some ref => dict_truthy (default ∅ (dicts s !! ref))
  | None => false
  end.

Definition specs_target (s : build_state) (template_specs : option nat) : nat :=
  match template_specs with
  | Some ref => if dict_truthy (default ∅ (dicts s !! ref)) then ref else length (dicts s)
  | None => length (dicts s)
  end.

(** What lines 91-92 and 94-99 leave in that dict. *)
Definition with_resolution (sloppy : bool) (skull_strip_template : string) (d : dict)
  : dict :=
  if String.eqb skull_strip_template "MNIInfant" then
    <["resolution" := VInt (if sloppy then 2 else 1)]> d
  else d.

Definition with_cohort (ext : externals) (age_months : option Z)
    (skull_strip_template : string) (d : dict) : result dict :=
  if truthy (dict_get d "cohort") then Ok d
  else match age_months with
       | None => Raise (KeyError ("Age or cohort for " +:+ skull_strip_template
                                  +:+ " must be provided!"))
       | Some age_months =>
           cohort ← cohort_by_months ext skull_strip_template age_months;
           Ok (<["cohort" := cohort]> d)
       end.

(** The entries of the dict once [template_specifics] is through with it,
    whether it returned or raised. *)
Definition specs_left (ext : externals) (age_months : option Z) (sloppy : bool)
    (skull_strip_template : string) (d : dict) : dict :=
  let d1 := with_resolution sloppy skull_strip_template d in
  match with_cohort ext age_months skull_strip_template d1 with
  | Ok d2 => d2
  | Raise _ => d1
  end.

(** The specifications [template_specifics] resolves, or the error it
    raises. *)
Definition resolved_specs (ext : externals) (age_months : option Z) (sloppy : bool)
    (skull_strip_template : string) (s : build_state) (template_specs : option nat)
  : result dict :=
  with_cohort ext age_months skull_strip_template
    (with_resolution sloppy skull_strip_template
       (if uses_callers_dict s template_specs then caller_specs s template_specs else ∅)).

(** What [init_infant_brain_extraction_wf] does once the specifications
    are resolved. *)
Definition after_specs (ext : externals) (ants_affine_init : pyval)
    (bspline_fitting_distance : Z) (sloppy : bool) (skull_strip_template : string)
    (mem_gb : pyfloat) (name : string) (omp_nthreads : option Z) (specs : dict)
  : M Workflow :=
  '(tpl_target_path, tpl_brainmask_path, tpl_regmask_path) ←
    brain_extraction.template_files ext skull_strip_template specs;
  brain_extraction.main_workflow ext tpl_target_path tpl_brainmask_path tpl_regmask_path
    ants_affine_init bspline_fitting_distance sloppy mem_gb name omp_nthreads.

(** Computations whose result does not depend on the session and that
    leave it as it is. *)
Definition stateless {A} (m : M A) : Prop := ∃ r, ∀ s, m s = (r, s).

(** Stand-ins for what the external interfaces compute, tagging every
    value with the input it was derived from. *)
Definition tagged (tag : string) (v : pyval) : pyval :=
  match v with
  | VStr x => VStr (tag +:+ x)
  | _ => VNone
  end.

Definition sample_operations : Scheduler.operations :=
  {| Scheduler.TemplateDesc := λ t, (tagged "name of " t, tagged "spec of " t);
     Scheduler.TemplateFlowSelect := λ t spec res, (tagged "T1w of " t, tagged "mask of " t);
     Scheduler._fmt_cohort := λ t spec, (t, spec);
     Scheduler.antsApplyTransforms_out := λ args ref, VTuple [VStr args; ref] |}.

(** The values given to the [inputnode] of [init_concat_registrations_wf]
    at run time. *)
Definition concat_inputs (anat_preproc anat2std_xfm : pyval) (intermediate : string)
    (std2anat_xfm : pyval) : Scheduler.bindings :=
  [("anat_preproc", anat_preproc); ("anat2std_xfm", anat2std_xfm);
   ("intermediate", VStr intermediate); ("std2anat_xfm", std2anat_xfm)].

(** Computations that create no engine object. *)
Definition keeps_log {A} (m : M A) : Prop :=
  ∀ s, instantiated (m s).2 = instantiated s.

(** Computations that leave every dict as it is. *)
Definition keeps_dicts {A} (m : M A) : Prop :=
  ∀ s, dicts (m s).2 = dicts s.

End Vocabulary.

(** * Vocabulary of the further properties *)

(** ** [_replace_mgz] (workflows/anatomical/surfaces.py) *)

Module surfaces_functions.
Definition _replace_mgz (in_file : string) : string :=
  str_replace in_file ".mgz" ".nii.gz".
End surfaces_functions.

(** [old in s] *)
Fixpoint occurs (old s : string) : bool :=
  match s with
  | EmptyString => String.prefix old s
  | String _ s' => String.prefix old s || occurs old s'
  end.

(** [c in s] for a character [c]. *)
Fixpoint has_char (c : ascii) (s : string) : bool :=
  match s with
  | EmptyString => false
  | String d s' => Ascii.eqb c d || has_char c s'
  end.

Section GraphVocabulary.
Import Engine.

(** The source ports connected to port [port] of the node called [name]. *)
Definition sources_of (wf : Workflow) (name port : string) : list (string * string) :=
  map (λ e, (src e, out_field (src_port e))) (inbound wf name port).

(** Field [field] of [inputnode] feeds some node of the graph. *)
Definition reads_input (wf : Workflow) (field : string) : bool :=
  existsb (λ e, String.eqb (src e) "inputnode" && String.eqb (out_field (src_port e)) field)
    (edges wf).

Definition inputs_read (wf : Workflow) (fields : list string) : list string :=
  List.filter (reads_input wf) fields.

(** The inputs set on a node at assembly ([node.inputs.x = v]). *)
Definition inputs_set (wf : Workflow) (name : string) : list (string * pyval) :=
  match find_node wf name with
  | Some n => inputs n
  | None => []
  end.


(** The edges that pipe their value through a function, as
    (source, function, destination, port). *)
Definition modified_edges (wf : Workflow) : list (string * string * string * string) :=
  omap (λ e, (λ f, (src e, f, dst e, dst_port e)) <$> modifier (src_port e)) (edges wf).

Fixpoint position (name : string) (order : list string) : option nat :=
  match order with
  | [] => None
  | x :: order' => if String.eqb x name then Some 0 else S <$> position name order'
  end.

Fixpoint distinct (l : list string) : bool :=
  match l with
  | [] => true
  | x :: l' => negb (name_in l' x) && distinct l'
  end.

(** The edge goes from a node of [order] to a later one. *)
Definition forward (order : list string) (e : edge) : bool :=
  match position (src e) order, position (dst e) order with
  | Some i, Some j => Nat.ltb i j
  | _, _ => false
  end.

(** [order] lists every node of the graph once, and every edge goes
    forward in it: the graph has no cycle and no edge to or from a node
    outside it. *)
Definition is_topological (order : list string) (wf : Workflow) : bool :=
  distinct order
  && Nat.eqb (length order) (length (nodes wf))
  && forallb (name_in order) (node_names wf)
  && forallb (forward order) (edges wf).

(** [inputnode] only produces, [outputnode] only consumes. *)
Definition boundary_ok (wf : Workflow) : bool :=
  forallb (λ e, negb (String.eqb (dst e) "inputnode") && negb (String.eqb (src e) "outputnode"))
    (edges wf).

Definition count_true (l : list bool) : nat := length (List.filter id l).

(** The graph can be scheduled: its nodes can be listed in an order in
    which every edge goes forward, with [inputnode] only producing and
    [outputnode] only consuming. *)
Definition dag (wf : Workflow) : Prop :=
  boundary_ok wf = true ∧ ∃ order, is_topological order wf = true.

(** The same for a builder that may raise. *)
Definition dag_if_built (r : result Workflow * build_state) : Prop :=
  match r.1 with
  | Ok wf => dag wf
  | Raise _ => True
  end.

(** The order the nodes were first ready in. *)
Definition ready_order (wf : Workflow) : list string :=
  map node_name (Scheduler.schedule_from (length (nodes wf)) wf []).

Definition dag_check (wf : Workflow) : bool :=
  boundary_ok wf && is_topological (ready_order wf) wf.

Definition dag_check_if_built (r : result Workflow * build_state) : bool :=
  match r.1 with
  | Ok wf => dag_check wf
  | Raise _ => true
  end.

End GraphVocabulary.

(** * Properties *)

(** ** Transform concatenation *)

Section ConcatXFM_facts.
Import ConcatXFM.

Lemma zip_replicate_r {A B} (l : list A) (b : B) :
  zip l (replicate (length l) b) = map (λ a, (a, b)) l.
Proof. induction l as [|a l IH]; simpl; [done | by rewrite IH]. Qed.

Lemma transform_chain_absent transforms :
  transform_chain transforms None = Ok (map (λ t, (t, false)) transforms).
Proof. unfold transform_chain; simpl. by rewrite zip_replicate_r. Qed.

Lemma antsApplyTransforms_rev {image} (resample : string → bool → image → image) chain x :
  antsApplyTransforms resample chain x = apply_in_sequence resample (rev chain) x.
Proof.
  unfold antsApplyTransforms, apply_in_sequence.
  rewrite <- (rev_involutive chain) at 1.
  by rewrite fold_left_rev_right.
Qed.

Lemma string_app_assoc (s1 s2 s3 : string) :
  (s1 +:+ s2) +:+ s3 = s1 +:+ (s2 +:+ s3).
Proof.
  induction s1 as [|c s1 IH]; [done |].
  change (String c ((s1 +:+ s2) +:+ s3) = String c (s1 +:+ (s2 +:+ s3))).
  by rewrite IH.
Qed.

(** No string is both [u ++ a ++ "," ++ _] and [a ++ " -" ++ _] when [u]
    is one of the two rotations of the opening bracket ["[ "]. *)
Lemma bracket_shift_ne (a r1 r2 u : string) :
  u = "[ " ∨ u = " [" →
  u +:+ a +:+ "," +:+ r1 ≠ a +:+ " -" +:+ r2.
Proof.
  revert u. induction a as [|c a IH]; intros u Hu.
  - destruct Hu as [-> | ->]; simpl; intros H; discriminate H.
  - destruct Hu as [-> | ->]; simpl; intros H.
    + injection H as Hc Hrest. subst c. apply (IH " ["); [by right |]. exact Hrest.
    + injection H as Hc Hrest. subst c. apply (IH "[ "); [by left |]. exact Hrest.
Qed.
End ConcatXFM_facts.

(** C1. With the invert flags absent, the command lists one
    [--transform <t>] argument per transform, in declaration order and with
    no inversion marker; the chain handed to the external tool is the
    transforms, all uninverted, so that applying the composite is applying
    the transforms in reverse declaration order.  For [[A; B]] this is
    applying [B], then [A]. *)
Theorem concat_xfm_absent_flags_reverse_order :
  (∀ (transforms : list string),
     ConcatXFM._get_transform_filenames transforms None
       = Ok (String.concat " " (map (λ t, "--transform " +:+ t) transforms))
     ∧ ConcatXFM.transform_chain transforms None = Ok (map (λ t, (t, false)) transforms)
     ∧ (∀ (image : Type) (resample : string → bool → image → image) (moving : image),
          ConcatXFM.antsApplyTransforms resample (map (λ t, (t, false)) transforms) moving
          = ConcatXFM.apply_in_sequence resample
              (map (λ t, (t, false)) (rev transforms)) moving))
  ∧ (∀ (A B : string),
       ConcatXFM._get_transform_filenames [A; B] None
         = Ok ("--transform " +:+ A +:+ " --transform " +:+ B)
       ∧ ConcatXFM.transform_chain [A; B] None = Ok [(A, false); (B, false)]
       ∧ (∀ (image : Type) (resample : string → bool → image → image) (moving : image),
            ConcatXFM.antsApplyTransforms resample [(A, false); (B, false)] moving
            = resample A false (resample B false moving))).
Proof.
  split.
  - intros transforms. split; [| split].
    + unfold ConcatXFM._get_transform_filenames.
      rewrite transform_chain_absent. simpl. by rewrite map_map.
    + apply transform_chain_absent.
    + intros. rewrite antsApplyTransforms_rev. by rewrite map_rev.
  - intros A B. repeat split.
Qed.

(** C3. A present, non-empty list of invert flags whose length differs from
    the number of transforms makes the argument construction raise before
    any command text is produced. *)
Theorem concat_xfm_arity_mismatch_raises :
  ∀ (transforms : list string) (flags : list bool),
    flags ≠ [] →
    length transforms ≠ length flags →
    ∃ msg, ConcatXFM._get_transform_filenames transforms (Some flags)
           = Raise (ValueError msg).
Proof.
  intros transforms flags Hne Hlen.
  unfold ConcatXFM._get_transform_filenames, ConcatXFM.transform_chain.
  destruct flags as [|b flags]; [done |]. simpl.
  destruct (Nat.eqb_spec (length transforms) (S (length flags))) as [E | E]; [done |].
  simpl. eauto.
Qed.

Lemma concat_xfm_arity_mismatch_raises_witness :
  [true] ≠ []
  ∧ length ["xfm1.h5"; "xfm0.h5"] ≠ length [true]
  ∧ ∃ msg, ConcatXFM._get_transform_filenames ["xfm1.h5"; "xfm0.h5"] (Some [true])
           = Raise (ValueError msg).
Proof.
  split; [discriminate |]. split; [simpl; lia |].
  apply (concat_xfm_arity_mismatch_raises ["xfm1.h5"; "xfm0.h5"] [true]).
  - discriminate.
  - simpl. lia.
Defined.

(** C6. Invert flags are attached positionally: for any two transforms [A]
    and [B] (distinct or not), flags [[True; False]] give
    [--transform [ A, 1 ] --transform B], flags [[False; True]] give
    [--transform A --transform [ B, 1 ]], and the two are never equal. *)
Theorem concat_xfm_invert_flags_positional :
  ∀ (A B : string),
    ConcatXFM._get_transform_filenames [A; B] (Some [true; false])
      = Ok ("--transform [ " +:+ A +:+ ", 1 ] --transform " +:+ B)
    ∧ ConcatXFM._get_transform_filenames [A; B] (Some [false; true])
      = Ok ("--transform " +:+ A +:+ " --transform [ " +:+ B +:+ ", 1 ]")
    ∧ ConcatXFM._get_transform_filenames [A; B] (Some [true; false])
      ≠ ConcatXFM._get_transform_filenames [A; B] (Some [false; true]).
Proof.
  intros A B.
  assert (H1 : ConcatXFM._get_transform_filenames [A; B] (Some [true; false])
      = Ok ("--transform [ " +:+ A +:+ ", 1 ] --transform " +:+ B)).
  { cbn. f_equal. by rewrite !string_app_assoc. }
  assert (H2 : ConcatXFM._get_transform_filenames [A; B] (Some [false; true])
      = Ok ("--transform " +:+ A +:+ " --transform [ " +:+ B +:+ ", 1 ]")).
  { cbn. f_equal. }
  split; [exact H1 | split; [exact H2 |]].
  rewrite H1, H2. intros H. injection H as H. cbn in H.
  repeat (injection H as _ H).
  apply (bracket_shift_ne A (" 1 ] --transform " +:+ B)
           ("-transform [ " +:+ B +:+ ", 1 ]") "[ "); [by left |].
  exact H.
Qed.

(** ** Conditional topology *)

(** C2. Whatever the configuration, [init_coregistration_wf] returns a
    graph holding exactly one of the three mask branches, selected in the
    order [t1w_mask], then [probmap], then the precomputed-mask fallback: all
    nodes of the selected branch are in the graph, and no node of the other
    two branches is in the graph or was even created. *)
Theorem coregistration_exactly_one_mask_branch :
  ∀ ext bspline_fitting_distance mem_gb omp_nthreads sloppy debug t1w_mask probmap name h,
    ∃ wf s',
      registration.init_coregistration_wf ext bspline_fitting_distance mem_gb omp_nthreads
        sloppy debug t1w_mask probmap name (fresh h) = (Ok wf, s')
      ∧ map (forallb (Engine.has_node_named wf)) mask_branches
        = [t1w_mask; negb t1w_mask && probmap; negb t1w_mask && negb probmap]
      ∧ map (existsb (Engine.has_node_named wf)) mask_branches
        = [t1w_mask; negb t1w_mask && probmap; negb t1w_mask && negb probmap]
      ∧ map (existsb (instantiated_named s')) mask_branches
        = [t1w_mask; negb t1w_mask && probmap; negb t1w_mask && negb probmap]
      ∧ count_occ bool_dec
          [t1w_mask; negb t1w_mask && probmap; negb t1w_mask && negb probmap] true = 1.
Proof.
  intros. destruct t1w_mask, probmap, debug;
    (eexists; eexists; split; [vm_compute; reflexivity | repeat split]).
Qed.

(** C7 as stated pairs the flags [t1w_aseg] and [t2w_aseg] with the output
    fields of the same name.  With only [t1w_aseg] set, the branch node
    [t1waseg2t2w] feeds [t2w_aseg]; the field [t1w_aseg] receives nothing. *)
Lemma coregister_derivatives_same_name_pairing_fails :
  ∃ wf s',
    registration.init_coregister_derivatives_wf false true false
      "coregister_derivatives_wf" (fresh []) = (Ok wf, s')
    ∧ Engine.has_node_named wf "t1waseg2t2w" = true
    ∧ branch_present wf "t1waseg2t2w" "t1w_aseg" = false
    ∧ inbound_count wf "t1w_aseg" = 0
    ∧ branch_present wf "t1waseg2t2w" "t2w_aseg" = true.
Proof. eexists; eexists; split; [vm_compute; reflexivity | repeat split]. Qed.

(** C7, amended.  Each of the three flags of
    [init_coregister_derivatives_wf] gates its own branch: [t1w_mask] the
    node [t1wmask2t2w] feeding [t2w_mask], [t1w_aseg] the node [t1waseg2t2w]
    feeding [t2w_aseg], [t2w_aseg] the node [t2waseg2t1w] feeding
    [t1w_aseg].  Node and connection are present exactly when the flag is
    set, an unset flag leaves its field without connection while the build
    still succeeds, and the edges of a branch do not depend on the other two
    flags: they are those of the graph built with the other flags off. *)
Theorem coregister_derivatives_additive_branches :
  ∀ (t1w_mask t1w_aseg t2w_aseg : bool) name h,
    ∃ wf s',
      registration.init_coregister_derivatives_wf t1w_mask t1w_aseg t2w_aseg name (fresh h)
        = (Ok wf, s')
      ∧ (Engine.has_node_named wf "t1wmask2t2w" = t1w_mask
         ∧ branch_present wf "t1wmask2t2w" "t2w_mask" = t1w_mask
         ∧ inbound_count wf "t2w_mask" = (if t1w_mask then 1 else 0))
      ∧ (Engine.has_node_named wf "t1waseg2t2w" = t1w_aseg
         ∧ branch_present wf "t1waseg2t2w" "t2w_aseg" = t1w_aseg
         ∧ inbound_count wf "t2w_aseg" = (if t1w_aseg then 1 else 0))
      ∧ (Engine.has_node_named wf "t2waseg2t1w" = t2w_aseg
         ∧ branch_present wf "t2waseg2t1w" "t1w_aseg" = t2w_aseg
         ∧ inbound_count wf "t1w_aseg" = (if t2w_aseg then 1 else 0))
      ∧ (∀ a b,
           edges_at (built (registration.init_coregister_derivatives_wf
                              t1w_mask a b name (fresh h))) "t1wmask2t2w"
           = edges_at (built (registration.init_coregister_derivatives_wf
                                t1w_mask false false name (fresh h))) "t1wmask2t2w")
      ∧ (∀ a b,
           edges_at (built (registration.init_coregister_derivatives_wf
                              a t1w_aseg b name (fresh h))) "t1waseg2t2w"
           = edges_at (built (registration.init_coregister_derivatives_wf
                                false t1w_aseg false name (fresh h))) "t1waseg2t2w")
      ∧ (∀ a b,
           edges_at (built (registration.init_coregister_derivatives_wf
                              a b t2w_aseg name (fresh h))) "t2waseg2t1w"
           = edges_at (built (registration.init_coregister_derivatives_wf
                                false false t2w_aseg name (fresh h))) "t2waseg2t1w").
Proof.
  intros.
  destruct t1w_mask, t1w_aseg, t2w_aseg;
    (eexists; eexists; split; [vm_compute; reflexivity |]);
    (split; [repeat split |]); (split; [repeat split |]); (split; [repeat split |]);
    (split; [| split]); intros a b; destruct a, b; vm_compute; reflexivity.
Qed.

(** ** Declared outputs *)

Section Frames.
Import Engine.

Lemma keeps_log_ret {A} (a : A) : keeps_log (mret a).
Proof. by intros s. Qed.

Lemma keeps_log_raise {A} e : keeps_log (raise e : M A).
Proof. by intros s. Qed.

Lemma keeps_log_lift {A} (r : result A) : keeps_log (lift r).
Proof. by intros s. Qed.

Lemma keeps_log_bind {A B} (m : M A) (f : A → M B) :
  keeps_log m → (∀ a, keeps_log (f a)) → keeps_log (m ≫= f).
Proof.
  intros Hm Hf s. unfold mbind, M_bind. specialize (Hm s).
  destruct (m s) as [[a | e] s1]; simpl in *; [| done].
  by rewrite Hf.
Qed.

Lemma keeps_log_alloc_dict d : keeps_log (alloc_dict d).
Proof. by intros s. Qed.

Lemma keeps_log_read_dict ref : keeps_log (read_dict ref).
Proof. by intros s. Qed.

Lemma keeps_log_dict_setitem ref k v : keeps_log (dict_setitem ref k v).
Proof. by intros s. Qed.

Lemma keeps_dicts_ret {A} (a : A) : keeps_dicts (mret a).
Proof. by intros s. Qed.

Lemma keeps_dicts_raise {A} e : keeps_dicts (raise e : M A).
Proof. by intros s. Qed.

Lemma keeps_dicts_lift {A} (r : result A) : keeps_dicts (lift r).
Proof. by intros s. Qed.

Lemma keeps_dicts_bind {A B} (m : M A) (f : A → M B) :
  keeps_dicts m → (∀ a, keeps_dicts (f a)) → keeps_dicts (m ≫= f).
Proof.
  intros Hm Hf s. unfold mbind, M_bind. specialize (Hm s).
  destruct (m s) as [[a | e] s1]; simpl in *; [| done].
  by rewrite Hf.
Qed.

Lemma keeps_dicts_new_node k i name kwargs : keeps_dicts (new_node k i name kwargs).
Proof. by intros s. Qed.

Lemma keeps_dicts_connect wf cl : keeps_dicts (connect wf cl).
Proof. by intros s. Qed.

Lemma keeps_dicts_read_dict ref : keeps_dicts (read_dict ref).
Proof. by intros s. Qed.
End Frames.

Create HintDb frames.
#[local] Hint Resolve keeps_log_ret keeps_log_raise keeps_log_lift keeps_log_alloc_dict
  keeps_log_read_dict keeps_log_dict_setitem : frames.
#[local] Hint Resolve keeps_dicts_ret keeps_dicts_raise keeps_dicts_lift keeps_dicts_new_node
  keeps_dicts_connect keeps_dicts_read_dict : frames.

(** Splits a goal along the structure of a monadic computation. *)
Ltac frame_step :=
  match goal with
  | |- keeps_log (_ ≫= _) => apply keeps_log_bind; [| intros ?]
  | |- keeps_dicts (_ ≫= _) => apply keeps_dicts_bind; [| intros ?]
  | |- keeps_log (if ?c then _ else _) => destruct c
  | |- keeps_dicts (if ?c then _ else _) => destruct c
  | |- keeps_log (match ?c with _ => _ end) => destruct c
  | |- keeps_dicts (match ?c with _ => _ end) => destruct c
  | |- _ => solve [auto with frames]
  end.

Section BrainExtractionFrames.
Import Engine brain_extraction.
Variable ext : externals.

Lemma call_get_template_keeps_log tpl explicit specs :
  keeps_log (call_get_template ext tpl explicit specs).
Proof. unfold call_get_template. repeat frame_step. Qed.

Lemma call_get_template_keeps_dicts tpl explicit specs :
  keeps_dicts (call_get_template ext tpl explicit specs).
Proof. unfold call_get_template. repeat frame_step. Qed.

Lemma template_specifics_keeps_log age sloppy tpl specs :
  keeps_log (template_specifics ext age sloppy tpl specs).
Proof. unfold template_specifics. repeat frame_step. Qed.

Lemma template_files_keeps_log tpl specs : keeps_log (template_files ext tpl specs).
Proof.
  unfold template_files.
  repeat (frame_step || apply call_get_template_keeps_log).
Qed.

Lemma template_files_keeps_dicts tpl specs : keeps_dicts (template_files ext tpl specs).
Proof.
  unfold template_files.
  repeat (frame_step || apply call_get_template_keeps_dicts).
Qed.

Lemma main_workflow_keeps_dicts v1 v2 v3 aff b sloppy mem name omp :
  keeps_dicts (main_workflow ext v1 v2 v3 aff b sloppy mem name omp).
Proof. unfold main_workflow, pe_Node. repeat frame_step. Qed.
End BrainExtractionFrames.

(** Case analysis on what the external collaborators returned. *)
Ltac case_external :=
  match goal with
  | |- context [match ?f ?a ?b ?c with Ok _ => _ | Raise _ => _ end] =>
      destruct (f a b c)
  end.

Section OutputLemmas.
Import Engine.

Lemma brain_extraction_main_outputs_ok ext v1 v2 v3 aff b sloppy mem name omp D :
  outputs_ok_if_built
    (brain_extraction.main_workflow ext v1 v2 v3 aff b sloppy mem name omp
       {| instantiated := []; dicts := D |}) [] = true.
Proof.
  unfold brain_extraction.main_workflow.
  destruct (truthy v3), (truthy aff), (brain_extraction._pop v1),
    (brain_extraction._pop v3); vm_compute; reflexivity.
Qed.

Lemma fresh_of_log s : instantiated s = [] → s = fresh (dicts s).
Proof. destruct s as [l d]; simpl; intros ->; reflexivity. Qed.

Lemma brain_extraction_outputs_ok ext age aff b sloppy tpl specs mem name omp h :
  outputs_ok_if_built
    (brain_extraction.init_infant_brain_extraction_wf ext age aff b sloppy tpl specs
       mem name omp (fresh h)) [] = true.
Proof.
  unfold brain_extraction.init_infant_brain_extraction_wf.
  unfold mbind at 1, M_bind at 1.
  pose proof (template_specifics_keeps_log ext age sloppy tpl specs (fresh h)) as H1.
  destruct (brain_extraction.template_specifics ext age sloppy tpl specs (fresh h))
    as [[ref | e] s1]; [| done].
  simpl in H1. unfold mbind at 1, M_bind at 1. simpl.
  unfold mbind at 1, M_bind at 1.
  pose proof (template_files_keeps_log ext tpl (default ∅ (dicts s1 !! ref)) s1) as H2.
  destruct (brain_extraction.template_files ext tpl (default ∅ (dicts s1 !! ref)) s1)
    as [[[[v1 v2] v3] | e] s2]; [| done].
  simpl in H2. rewrite H1 in H2. rewrite (fresh_of_log s2 H2).
  apply brain_extraction_main_outputs_ok.
Qed.
End OutputLemmas.

(** C5.  [init_infantfs_surface_recon_wf] with ['fsnative'] among the
    precomputed transforms returns no graph: it declares the four outputs,
    creates five nodes and then raises the [ValueError] of
    [init_midthickness_wf] before anything is connected, so no declared
    output field receives a connection. *)
Lemma infantfs_with_precomputed_fsnative_returns_no_graph :
  let precomputed : gmap string Engine.dict :=
    {["transforms" := {["fsnative" := VStr "fsnative2anat.lta"]}]} in
  let r := surfaces.init_infantfs_surface_recon_wf 6 precomputed 4 false
             "infantfs_surface_recon_wf" (fresh []) in
  surfaces.fsnative_missing precomputed = false
  ∧ r.1 = Raise (ValueError "Identity Interface input is not in the fields: name")
  ∧ map Engine.node_name (Engine.instantiated r.2)
    = ["inputnode"; "outputnode"; "gen_recon_outdir"; "reconall"; "fssource"]
  ∧ created_outputs r.2
    = ["subjects_dir"; "subject_id"; "anat2fsnative_xfm"; "fsnative2anat_xfm"]
  ∧ map (inbound_count (built r)) (created_outputs r.2) = [0; 0; 0; 0].
Proof. vm_compute. repeat split. Qed.

(** ** Template specifications and build errors *)

Section TemplateSpecs.
Import Engine brain_extraction.

Lemma list_alter_Some {A} (f : A → A) (l : list A) i x :
  l !! i = Some x → alter f i l = <[i := f x]> l.
Proof.
  revert i. induction l as [|y l IH]; intros [|i] H; simplify_eq/=; [done |].
  f_equal. by apply IH.
Qed.

(** [template_specifics] in one step: which dict it works on and what it
    leaves there, also when it raises. *)
Lemma template_specifics_spec ext age sloppy tpl ts s :
  template_specifics ext age sloppy tpl ts s
  = let uses := uses_callers_dict s ts in
    let target := specs_target s ts in
    let h0 := (if uses then dicts s else dicts s ++ [∅])%list in
    let d1 := with_resolution sloppy tpl (if uses then caller_specs s ts else ∅) in
    match with_cohort ext age tpl d1 with
    | Ok d2 =>
        (Ok target, {| instantiated := instantiated s; dicts := <[target := d2]> h0 |})
    | Raise e =>
        (Raise e, {| instantiated := instantiated s; dicts := <[target := d1]> h0 |})
    end.
Proof.
  destruct s as [log h].
  assert (Htail : ∀ h0 t d0, h0 !! t = Some d0 →
    (_ ← (if String.eqb tpl "MNIInfant" then
            dict_setitem t "resolution" (VInt (if sloppy then 2 else 1))
          else mret ());
     d ← read_dict t;
     _ ← (if negb (truthy (dict_get d "cohort")) then
            match age with
            | None =>
                raise (KeyError ("Age or cohort for " +:+ tpl
                                 +:+ " must be provided!"))
            | Some age_months =>
                cohort ← lift (cohort_by_months ext tpl age_months);
                dict_setitem t "cohort" cohort
            end
          else mret ());
     mret t : M nat) {| instantiated := log; dicts := h0 |}
    = match with_cohort ext age tpl (with_resolution sloppy tpl d0) with
      | Ok d2 => (Ok t, {| instantiated := log; dicts := <[t := d2]> h0 |})
      | Raise e => (Raise e, {| instantiated := log;
                                dicts := <[t := with_resolution sloppy tpl d0]> h0 |})
      end).
  { intros h0 target d0 Hd.
    unfold with_resolution, with_cohort.
    destruct (String.eqb tpl "MNIInfant");
      unfold mbind, M_bind, dict_setitem, read_dict, mret, M_ret, lift, raise; simpl.
    - rewrite list_lookup_alter_eq, Hd. simpl.
      rewrite (list_alter_Some _ _ _ _ Hd).
      destruct (truthy (dict_get _ "cohort")); simpl; [done |].
      destruct age as [a |]; [| done].
      destruct (cohort_by_months ext tpl a) as [c | e]; simpl; [| done].
      erewrite list_alter_Some;
        [| apply list_lookup_insert_eq; eapply lookup_lt_Some; eauto].
      by rewrite list_insert_insert_eq.
    - rewrite Hd. simpl.
      destruct (truthy (dict_get _ "cohort")); simpl.
      { by rewrite list_insert_id. }
      destruct age as [a |]; [| by rewrite list_insert_id].
      destruct (cohort_by_months ext tpl a) as [c | e]; simpl;
        [| by rewrite list_insert_id].
      by rewrite (list_alter_Some _ _ _ _ Hd). }
  unfold template_specifics, uses_callers_dict, specs_target, caller_specs.
  destruct ts as [ref |]; simpl.
  - unfold mbind at 1, M_bind at 1. unfold mbind at 1, M_bind at 1. simpl.
    destruct (dict_truthy (default ∅ (h !! ref))) eqn:Ht; simpl.
    + apply Htail. destruct (h !! ref); [done | discriminate].
    + apply (Htail (h ++ [∅])%list (length h) ∅). by apply list_lookup_middle.
  - unfold mbind at 1, M_bind at 1. simpl.
    apply (Htail (h ++ [∅])%list (length h) ∅). by apply list_lookup_middle.
Qed.

Lemma with_resolution_cohort sloppy tpl (d : dict) :
  with_resolution sloppy tpl d !! "cohort" = d !! "cohort".
Proof.
  unfold with_resolution. destruct (String.eqb tpl "MNIInfant"); [| done].
  by rewrite lookup_insert_ne.
Qed.

Lemma with_cohort_missing ext tpl (d : dict) :
  d !! "cohort" = None →
  with_cohort ext None tpl d
  = Raise (KeyError ("Age or cohort for " +:+ tpl +:+ " must be provided!")).
Proof. intros H. unfold with_cohort, dict_get. by rewrite H. Qed.
End TemplateSpecs.

(** C9. Configuration errors are raised before any node exists.
    [init_mcribs_surface_recon_wf] called with [use_aseg] false raises at
    once and leaves the session as it was.
    [init_infant_brain_extraction_wf] called with no [cohort] among the
    template specifications and no age raises a [KeyError] with no node
    created; no graph is returned in either case. *)
Theorem build_errors_precede_node_creation :
  ∀ ext ants_affine_init bspline_fitting_distance sloppy skull_strip_template template_specs
    mem_gb name omp_nthreads (s : Engine.build_state)
    mcribs_nthreads use_mask precomputed mcribs_dir mcribs_name,
    caller_specs s template_specs !! "cohort" = None →
    surfaces.init_mcribs_surface_recon_wf mcribs_nthreads false use_mask precomputed
      mcribs_dir mcribs_name s
    = (Raise (NotImplementedError
                "A previously computed segmentation is required for the M-CRIB-S workflow."),
       s)
    ∧ (∃ s',
         brain_extraction.init_infant_brain_extraction_wf ext None ants_affine_init
           bspline_fitting_distance sloppy skull_strip_template template_specs mem_gb name
           omp_nthreads s
         = (Raise (KeyError ("Age or cohort for " +:+ skull_strip_template
                             +:+ " must be provided!")), s')
         ∧ Engine.instantiated s' = Engine.instantiated s).
Proof.
  intros until mcribs_name. intros Hcohort. split; [reflexivity |].
  unfold brain_extraction.init_infant_brain_extraction_wf.
  unfold mbind at 1, Engine.M_bind at 1.
  rewrite template_specifics_spec. cbv zeta.
  rewrite with_cohort_missing.
  - eexists. split; reflexivity.
  - rewrite with_resolution_cohort.
    destruct (uses_callers_dict s template_specs); [exact Hcohort | done].
Qed.

Lemma build_errors_precede_node_creation_witness :
  caller_specs (fresh [{["resolution" := VInt 1]}]) (Some 0) !! "cohort" = None
  ∧ surfaces.init_mcribs_surface_recon_wf 8 false true ∅ None "mcribs_surface_recon_wf"
      (fresh [{["resolution" := VInt 1]}])
    = (Raise (NotImplementedError
                "A previously computed segmentation is required for the M-CRIB-S workflow."),
       fresh [{["resolution" := VInt 1]}])
  ∧ (∃ s',
       brain_extraction.init_infant_brain_extraction_wf sample_externals None (VBool false)
         200 false "UNCInfant" (Some 0) (Float 30 (-1)) "infant_brain_extraction_wf" None
         (fresh [{["resolution" := VInt 1]}])
       = (Raise (KeyError ("Age or cohort for " +:+ "UNCInfant" +:+ " must be provided!")), s')
       ∧ Engine.instantiated s' = Engine.instantiated (fresh [{["resolution" := VInt 1]}])).
Proof.
  split; [vm_compute; reflexivity |].
  apply (build_errors_precede_node_creation sample_externals (VBool false) 200 false
           "UNCInfant" (Some 0) (Float 30 (-1)) "infant_brain_extraction_wf" None
           (fresh [{["resolution" := VInt 1]}]) 8 true ∅ None "mcribs_surface_recon_wf").
  vm_compute. reflexivity.
Defined.

Section TemplateSpecsHeap.
Import Engine brain_extraction.

(** After [template_specifics] nothing writes to a dict. *)
Lemma brain_extraction_heap ext age aff b sloppy tpl ts mem name omp s :
  dicts (init_infant_brain_extraction_wf ext age aff b sloppy tpl ts mem name omp s).2
  = dicts (template_specifics ext age sloppy tpl ts s).2.
Proof.
  unfold init_infant_brain_extraction_wf.
  unfold mbind at 1, M_bind at 1.
  destruct (template_specifics ext age sloppy tpl ts s) as [[ref | e] s1]; [| done].
  simpl. unfold mbind at 1, M_bind at 1. simpl.
  unfold mbind at 1, M_bind at 1.
  pose proof (template_files_keeps_dicts ext tpl (default ∅ (dicts s1 !! ref)) s1) as H1.
  destruct (template_files ext tpl (default ∅ (dicts s1 !! ref)) s1)
    as [[[[v1 v2] v3] | e] s2]; simpl in *; [| done].
  by rewrite main_workflow_keeps_dicts.
Qed.

Lemma template_specifics_heap ext age sloppy tpl ts s :
  dicts (template_specifics ext age sloppy tpl ts s).2
  = if uses_callers_dict s ts then
      <[specs_target s ts := specs_left ext age sloppy tpl (caller_specs s ts)]> (dicts s)
    else (dicts s ++ [specs_left ext age sloppy tpl ∅])%list.
Proof.
  rewrite template_specifics_spec. cbv zeta. unfold specs_left.
  destruct (uses_callers_dict s ts) eqn:Hu.
  - by destruct (with_cohort ext age tpl _).
  - assert (Ht : specs_target s ts = length (dicts s) + 0).
    { unfold specs_target, uses_callers_dict in *. destruct ts as [ref |]; [| lia].
      rewrite Hu. lia. }
    rewrite Ht.
    by destruct (with_cohort ext age tpl _); simpl; rewrite insert_app_r.
Qed.
End TemplateSpecsHeap.

(** C10 as stated leaves the caller's dict untouched only when [None] is
    passed.  An empty dict is falsy, so [template_specs or {}] replaces it by
    a new one: with ['MNIInfant'] and an age, the caller's empty dict stays
    empty (no ['resolution'], no ['cohort']) while the build succeeds. *)
Lemma empty_template_specs_left_untouched :
  let r := brain_extraction.init_infant_brain_extraction_wf sample_externals (Some 3%Z)
             (VBool false) 200 false "MNIInfant" (Some 0) (Float 30 (-1))
             "infant_brain_extraction_wf" None (fresh [∅]) in
  is_ok r.1 = true
  ∧ Engine.dicts r.2 !! 0 = Some ∅
  ∧ Engine.dicts r.2 !! 1 = Some (<["cohort" := VInt 3]> {["resolution" := VInt 1]}).
Proof. vm_compute. repeat split. Qed.

(** C10, amended.  [init_infant_brain_extraction_wf] mutates the caller's
    [template_specs] in place exactly when it is a non-empty dict: that dict
    then gets ['resolution'] (2 if sloppy else 1) for ['MNIInfant'] and, when
    it has no ['cohort'] entry and an age is given, ['cohort'] from the age;
    no other dict changes.  When [None] or an empty dict is passed, a new dict
    receives these entries and every dict of the caller is left as it was. *)
Theorem template_specs_mutated_in_place_when_nonempty :
  ∀ ext age_months ants_affine_init bspline_fitting_distance sloppy skull_strip_template
    template_specs mem_gb name omp_nthreads (s : Engine.build_state),
    let s' := (brain_extraction.init_infant_brain_extraction_wf ext age_months
                 ants_affine_init bspline_fitting_distance sloppy skull_strip_template
                 template_specs mem_gb name omp_nthreads s).2 in
    let left := specs_left ext age_months sloppy skull_strip_template in
    match template_specs with
    | Some ref =>
        if Engine.dict_truthy (default ∅ (Engine.dicts s !! ref)) then
          Engine.dicts s' = <[ref := left (default ∅ (Engine.dicts s !! ref))]> (Engine.dicts s)
        else Engine.dicts s' = (Engine.dicts s ++ [left ∅])%list
    | None => Engine.dicts s' = (Engine.dicts s ++ [left ∅])%list
    end
    ∧ (∀ d : Engine.dict,
         specs_left ext age_months sloppy "MNIInfant" d !! "resolution"
         = Some (VInt (if sloppy then 2 else 1)))
    ∧ (∀ (d : Engine.dict) (months : Z),
         specs_left ext (Some months) sloppy skull_strip_template (delete "cohort" d)
         = match cohort_by_months ext skull_strip_template months with
           | Ok cohort =>
               <["cohort" := cohort]>
                 (with_resolution sloppy skull_strip_template (delete "cohort" d))
           | Raise _ => with_resolution sloppy skull_strip_template (delete "cohort" d)
           end).
Proof.
  intros. subst s' left. split; [| split].
  - rewrite brain_extraction_heap, template_specifics_heap.
    unfold uses_callers_dict, specs_target, caller_specs.
    destruct template_specs as [ref |]; [| done].
    by destruct (Engine.dict_truthy _).
  - intros d. unfold specs_left, with_cohort, with_resolution. simpl.
    destruct (truthy _); [by rewrite lookup_insert_eq |].
    destruct age_months as [a |]; [| by rewrite lookup_insert_eq].
    destruct (cohort_by_months ext "MNIInfant" a); simpl.
    + rewrite lookup_insert_ne; [| done]. by rewrite lookup_insert_eq.
    + by rewrite lookup_insert_eq.
  - intros d months. unfold specs_left, with_cohort, Engine.dict_get.
    rewrite with_resolution_cohort, lookup_delete_eq. simpl.
    by destruct (cohort_by_months ext skull_strip_template months).
Qed.

(** ** Determinism *)

Section Determinism.
Import Engine brain_extraction.
Variable ext : externals.

Lemma stateless_ret {A} (a : A) : stateless (mret a).
Proof. by exists (Ok a). Qed.
Lemma stateless_raise {A} e : stateless (raise e : M A).
Proof. by exists (Raise e). Qed.
Lemma stateless_lift {A} (r : result A) : stateless (lift r).
Proof. by exists r. Qed.
Lemma stateless_bind {A B} (m : M A) (f : A → M B) :
  stateless m → (∀ a, stateless (f a)) → stateless (m ≫= f).
Proof.
  intros [r Hr] Hf. destruct r as [a | e].
  - destruct (Hf a) as [r' Hr']. exists r'. intros s.
    unfold mbind, M_bind. by rewrite Hr, Hr'.
  - exists (Raise e). intros s. unfold mbind, M_bind. by rewrite Hr.
Qed.

Lemma call_get_template_stateless tpl explicit specs :
  stateless (call_get_template ext tpl explicit specs).
Proof.
  unfold call_get_template.
  destruct (List.find _ explicit); [apply stateless_raise | apply stateless_lift].
Qed.

Lemma template_files_stateless tpl specs : stateless (template_files ext tpl specs).
Proof.
  unfold template_files.
  repeat first
    [ apply stateless_bind; [| intros ?]
    | apply call_get_template_stateless
    | apply stateless_ret
    | apply stateless_raise
    | match goal with |- stateless (if ?c then _ else _) => destruct c end ].
Qed.

Lemma with_resolution_idem sloppy tpl (d : dict) :
  with_resolution sloppy tpl (with_resolution sloppy tpl d) = with_resolution sloppy tpl d.
Proof.
  unfold with_resolution. destruct (String.eqb tpl "MNIInfant"); [| done].
  by rewrite insert_insert_eq.
Qed.

Lemma with_resolution_insert_cohort sloppy tpl c (d : dict) :
  with_resolution sloppy tpl (<["cohort" := c]> (with_resolution sloppy tpl d))
  = <["cohort" := c]> (with_resolution sloppy tpl d).
Proof.
  unfold with_resolution. destruct (String.eqb tpl "MNIInfant"); [| done].
  rewrite insert_insert_ne; [| done]. by rewrite insert_insert_eq.
Qed.

(** Resolving the specifications a second time changes nothing. *)
Lemma resolve_specs_left age sloppy tpl (d : dict) :
  with_cohort ext age tpl (with_resolution sloppy tpl (specs_left ext age sloppy tpl d))
  = with_cohort ext age tpl (with_resolution sloppy tpl d).
Proof.
  unfold specs_left.
  destruct (with_cohort ext age tpl (with_resolution sloppy tpl d)) as [d2 | e] eqn:E.
  - unfold with_cohort in E.
    destruct (truthy (dict_get (with_resolution sloppy tpl d) "cohort")) eqn:Ht.
    + injection E as <-. rewrite with_resolution_idem.
      unfold with_cohort. by rewrite Ht.
    + destruct age as [a |]; [| done].
      destruct (cohort_by_months ext tpl a) as [c | e] eqn:Ec; [| done].
      simpl in E. injection E as <-.
      rewrite with_resolution_insert_cohort.
      unfold with_cohort, dict_get. rewrite lookup_insert_eq. simpl.
      destruct (truthy c); [done |].
      rewrite Ec. simpl. by rewrite insert_insert_eq.
  - rewrite with_resolution_idem. exact E.
Qed.

Lemma dict_truthy_insert k v (d : dict) : dict_truthy (<[k := v]> d) = true.
Proof.
  unfold dict_truthy. destruct (Nat.eqb_spec (size (<[k := v]> d)) 0) as [E |]; [| done].
  apply map_size_empty_inv in E. by apply insert_non_empty in E.
Qed.

Lemma dict_truthy_specs_left age sloppy tpl (d : dict) :
  dict_truthy d = true → dict_truthy (specs_left ext age sloppy tpl d) = true.
Proof.
  intros Hd. unfold specs_left, with_cohort, with_resolution.
  destruct (String.eqb tpl "MNIInfant");
    destruct (truthy _); try destruct age; try destruct (cohort_by_months _ _ _);
    simpl; rewrite ?dict_truthy_insert; done.
Qed.

Lemma resolved_specs_dicts age sloppy tpl s1 s2 ts :
  dicts s1 = dicts s2 →
  resolved_specs ext age sloppy tpl s1 ts = resolved_specs ext age sloppy tpl s2 ts.
Proof.
  intros H. unfold resolved_specs, uses_callers_dict, caller_specs. by rewrite H.
Qed.

(** A second call resolves the same specifications as the first. *)
Lemma resolved_specs_again age sloppy tpl ts s :
  resolved_specs ext age sloppy tpl (template_specifics ext age sloppy tpl ts s).2 ts
  = resolved_specs ext age sloppy tpl s ts.
Proof.
  unfold resolved_specs at 1.
  unfold uses_callers_dict at 1, caller_specs at 1.
  rewrite template_specifics_heap.
  unfold resolved_specs.
  destruct ts as [ref |]; [| done].
  unfold uses_callers_dict, specs_target, caller_specs.
  destruct (dict_truthy (default ∅ (dicts s !! ref))) eqn:Hu.
  - assert (Hlt : ref < length (dicts s)).
    { destruct (dicts s !! ref) eqn:E; [by eapply lookup_lt_Some | discriminate]. }
    rewrite list_lookup_insert_eq by done. simpl.
    rewrite dict_truthy_specs_left by done.
    apply resolve_specs_left.
  - rewrite lookup_app.
    destruct (dicts s !! ref) as [d |] eqn:E; simpl in *.
    + by rewrite Hu.
    + destruct (ref - length (dicts s)) as [| n]; simpl; [| done].
      destruct (dict_truthy (specs_left ext age sloppy tpl ∅)); [| done].
      apply resolve_specs_left.
Qed.

(** The builder, once [template_specifics] is read as [resolved_specs]. *)
Lemma brain_extraction_unfold age aff b sloppy tpl ts mem name omp s :
  init_infant_brain_extraction_wf ext age aff b sloppy tpl ts mem name omp s
  = match resolved_specs ext age sloppy tpl s ts with
    | Ok specs =>
        after_specs ext aff b sloppy tpl mem name omp specs
          {| instantiated := instantiated s;
             dicts := dicts (template_specifics ext age sloppy tpl ts s).2 |}
    | Raise e =>
        (Raise e, {| instantiated := instantiated s;
                     dicts := dicts (template_specifics ext age sloppy tpl ts s).2 |})
    end.
Proof.
  unfold init_infant_brain_extraction_wf, after_specs, resolved_specs.
  unfold mbind at 1, M_bind at 1.
  rewrite template_specifics_spec. cbv zeta.
  destruct (with_cohort ext age tpl _) as [d2 | e]; simpl; [| done].
  unfold mbind at 1, M_bind at 1. simpl.
  rewrite list_lookup_insert_eq; [done |].
  unfold specs_target, uses_callers_dict.
  destruct ts as [ref |]; simpl.
  - destruct (dict_truthy (default ∅ (dicts s !! ref))) eqn:Hu.
    + destruct (dicts s !! ref) eqn:E; [by eapply lookup_lt_Some | discriminate].
    + rewrite length_app. simpl. lia.
  - rewrite length_app. simpl. lia.
Qed.

Lemma main_workflow_twice v1 v2 v3 aff b sloppy mem name omp D1 D2 :
  same_structure
    (let '(r1, t1) := main_workflow ext v1 v2 v3 aff b sloppy mem name omp
                        {| instantiated := []; dicts := D1 |} in
     let '(r2, _) := main_workflow ext v1 v2 v3 aff b sloppy mem name omp
                       {| instantiated := instantiated t1; dicts := D2 |} in
     (r1, r2)).
Proof.
  unfold main_workflow.
  destruct (truthy v3), (truthy aff), (_pop v1), (_pop v3); vm_compute; reflexivity.
Qed.

Lemma brain_extraction_twice age aff b sloppy tpl ts mem name omp h :
  same_structure
    (run_twice (init_infant_brain_extraction_wf ext age aff b sloppy tpl ts mem name omp)
       (fresh h)).
Proof.
  unfold run_twice.
  rewrite brain_extraction_unfold.
  pose proof (resolved_specs_again age sloppy tpl ts (fresh h)) as Hagain.
  set (D := dicts (template_specifics ext age sloppy tpl ts (fresh h)).2) in *.
  destruct (resolved_specs ext age sloppy tpl (fresh h) ts) as [specs | e] eqn:E.
  - unfold after_specs at 1.
    destruct (template_files_stateless tpl specs) as [rf Hf].
    unfold mbind at 1, M_bind at 1. rewrite Hf.
    destruct rf as [[[v1 v2] v3] | e].
    + simpl instantiated.
      pose proof (main_workflow_twice v1 v2 v3 aff b sloppy mem name omp D) as Hmain.
      pose proof (main_workflow_keeps_dicts ext v1 v2 v3 aff b sloppy mem name omp
                    {| instantiated := []; dicts := D |}) as Hkeep.
      destruct (main_workflow ext v1 v2 v3 aff b sloppy mem name omp
                  {| instantiated := []; dicts := D |}) as [r1 t1].
      simpl in Hkeep.
      rewrite brain_extraction_unfold.
      rewrite (resolved_specs_dicts age sloppy tpl t1
                 (template_specifics ext age sloppy tpl ts (fresh h)).2 ts) by exact Hkeep.
      rewrite Hagain.
      unfold after_specs. unfold mbind at 1, M_bind at 1. rewrite Hf.
      apply Hmain.
    + rewrite brain_extraction_unfold.
      rewrite (resolved_specs_dicts age sloppy tpl _
                 (template_specifics ext age sloppy tpl ts (fresh h)).2 ts) by reflexivity.
      rewrite Hagain.
      unfold after_specs. unfold mbind at 1, M_bind at 1. rewrite Hf. reflexivity.
  - rewrite brain_extraction_unfold.
    rewrite (resolved_specs_dicts age sloppy tpl _
               (template_specifics ext age sloppy tpl ts (fresh h)).2 ts) by reflexivity.
    rewrite Hagain. reflexivity.
Qed.
End Determinism.

(** C8.  [init_preproc_anat_wf] yields no graph at all: the module cannot
    be imported (line 1 names a module nipype does not have), whatever the
    arguments and whatever was built before. *)
Lemma preproc_cannot_be_imported :
  ∀ bspline_fitting_distance name s,
    preproc.init_preproc_anat_wf bspline_fitting_distance name s
    = (Raise (ModuleNotFoundError "No module named 'nipype.engine'"), s).
Proof. reflexivity. Qed.

(** ** Count-driven replication *)

(** C4.  The replication does not deliver the triples on the inputs the
    builder documents.  With three templates and the single
    [anat_preproc], [anat2std_xfm] and [std2anat_xfm] of the docstring,
    [merge_anat2std] and [merge_std2anat] fail on the length mismatch
    between their iterated inputs, both [ConcatXFM] map-nodes and
    [outputnode] are unreachable, and no composite transform comes out;
    only the names and specifications are computed.  With one template the
    same inputs give the one triple at [outputnode]. *)
Lemma concat_registrations_fails_on_documented_inputs :
  let sem := Scheduler.nibabies_semantics sample_externals sample_operations in
  let documented :=
    concat_inputs (VStr "sub-01_T1w.nii.gz") (VStr "from-T1w_to-MNIInfant_xfm.h5")
      "MNIInfant:cohort-1" (VStr "from-MNIInfant_to-T1w_xfm.h5") in
  let graph templates :=
    built (registration.init_concat_registrations_wf sample_externals templates
             "concat_registrations_wf" (fresh [])) in
  let three :=
    Scheduler.run sem
      (graph ["MNI152NLin6Asym"; "MNI152NLin2009cAsym"; "MNIPediatricAsym:cohort-4"])
      documented in
  let one := Scheduler.run sem (graph ["MNI152NLin6Asym"]) documented in
  Scheduler.node_status three "merge_anat2std"
    = Some (Scheduler.Failed (ArityMismatchError "merge_anat2std"))
  ∧ Scheduler.node_status three "merge_std2anat"
    = Some (Scheduler.Failed (ArityMismatchError "merge_std2anat"))
  ∧ Scheduler.node_status three "concat_anat2std" = Some Scheduler.Unreachable
  ∧ Scheduler.node_status three "concat_std2anat" = Some Scheduler.Unreachable
  ∧ Scheduler.node_status three "outputnode" = Some Scheduler.Unreachable
  ∧ Scheduler.output_of three "outputnode" "anat2std_xfm" = None
  ∧ Scheduler.output_of three "outputnode" "template" = None
  ∧ Scheduler.output_of three "fmt_cohort" "template"
    = Some (VList [VStr "name of MNI152NLin6Asym"; VStr "name of MNI152NLin2009cAsym";
                   VStr "name of MNIPediatricAsym:cohort-4"])
  ∧ Scheduler.output_of one "outputnode" "anat2std_xfm"
    = Some (VList [VTuple [VStr ("--transform nibabies/data/tpl_xfms/"
                                 +:+ "from-MNIInfant+1_to-MNI152NLin6Asym_xfm.h5"
                                 +:+ " --transform from-T1w_to-MNIInfant_xfm.h5");
                           VStr "T1w of name of MNI152NLin6Asym"]])
  ∧ Scheduler.output_of one "outputnode" "template"
    = Some (VList [VStr "name of MNI152NLin6Asym"])
  ∧ Scheduler.output_of one "outputnode" "template_spec"
    = Some (VList [VStr "spec of MNI152NLin6Asym"]).
Proof. vm_compute. repeat split. Qed.

(** * Further properties *)

(** ** Transform concatenation with invert flags *)

Section ConcatXFM_flags.
#[local] Open Scope list_scope.

Lemma transform_chain_equal_length (transforms : list string) (flags : list bool) :
  length transforms = length flags →
  ConcatXFM.transform_chain transforms (Some flags) = Ok (zip transforms flags).
Proof.
  intros H. unfold ConcatXFM.transform_chain.
  destruct flags as [|b flags].
  - destruct transforms; [reflexivity | discriminate].
  - simpl. rewrite H. simpl. by rewrite Nat.eqb_refl.
Qed.

Lemma zip_replicate_false (transforms : list string) :
  zip transforms (replicate (length transforms) false) = map (λ t, (t, false)) transforms.
Proof. induction transforms as [|t l IH]; simpl; [done | by rewrite IH]. Qed.
End ConcatXFM_flags.

(** X1.  The argument construction of [ConcatXFM] succeeds exactly when the
    invert flags are absent, empty, or as many as the transforms; in every
    other case it raises the [ValueError] of line 87. *)
Theorem concat_xfm_raises_exactly_on_length_mismatch :
  ∀ (transforms : list string) (flags : option (list bool)),
    match flags with
    | None | Some [] =>
        ConcatXFM._get_transform_filenames transforms flags
        = Ok (String.concat " " (map (λ t, "--transform " +:+ t) transforms))
    | Some (b :: l) =>
        if Nat.eqb (length transforms) (length (b :: l)) then
          ConcatXFM._get_transform_filenames transforms flags
          = Ok (String.concat " " (map ConcatXFM.transform_arg (zip transforms (b :: l))))
        else
          ConcatXFM._get_transform_filenames transforms flags
          = Raise (ValueError ("ERROR: The invert_transform_flags list must have the same "
                               +:+ "number of entries as the transforms list."))
    end.
Proof.
  intros transforms [[|b l] |].
  - unfold ConcatXFM._get_transform_filenames, ConcatXFM.transform_chain. simpl.
    rewrite zip_replicate_false, map_map. reflexivity.
  - destruct (Nat.eqb_spec (length transforms) (length (b :: l))) as [E | E].
    + unfold ConcatXFM._get_transform_filenames.
      by rewrite (transform_chain_equal_length _ _ E).
    + unfold ConcatXFM._get_transform_filenames, ConcatXFM.transform_chain. simpl.
      destruct (Nat.eqb_spec (length transforms) (S (length l))) as [E' | E']; [done |].
      reflexivity.
  - unfold ConcatXFM._get_transform_filenames, ConcatXFM.transform_chain. simpl.
    rewrite zip_replicate_false, map_map. reflexivity.
Qed.

(** X2.  An empty list of invert flags, and a list of as many [False] as there
    are transforms, give the same command as absent flags: no arity error
    and no inversion marker, whatever the number of transforms. *)
Theorem concat_xfm_falsy_flags_as_absent :
  ∀ (transforms : list string),
    ConcatXFM._get_transform_filenames transforms (Some [])
    = ConcatXFM._get_transform_filenames transforms None
    ∧ ConcatXFM._get_transform_filenames transforms
        (Some (replicate (length transforms) false))
      = ConcatXFM._get_transform_filenames transforms None.
Proof.
  intros transforms. split; [reflexivity |].
  unfold ConcatXFM._get_transform_filenames.
  rewrite transform_chain_equal_length by (by rewrite length_replicate).
  unfold ConcatXFM.transform_chain. reflexivity.
Qed.

(** X3.  With as many invert flags as transforms, every transform is paired
    with the flag at its own position, the command has one argument per
    transform, and the external tool applies the pairs in reverse
    declaration order, each transform inverted exactly when its flag is
    set. *)
Theorem concat_xfm_flags_follow_their_transform :
  ∀ (transforms : list string) (flags : list bool),
    length flags = length transforms →
    ConcatXFM.transform_chain transforms (Some flags) = Ok (zip transforms flags)
    ∧ (zip transforms flags).*1 = transforms
    ∧ (zip transforms flags).*2 = flags
    ∧ ConcatXFM._get_transform_filenames transforms (Some flags)
      = Ok (String.concat " " (map ConcatXFM.transform_arg (zip transforms flags)))
    ∧ length (map ConcatXFM.transform_arg (zip transforms flags)) = length transforms
    ∧ (∀ (image : Type) (resample : string → bool → image → image) (moving : image),
         ConcatXFM.antsApplyTransforms resample (zip transforms flags) moving
         = ConcatXFM.apply_in_sequence resample (rev (zip transforms flags)) moving).
Proof.
  intros transforms flags H.
  assert (Hc := transform_chain_equal_length transforms flags (eq_sym H)).
  split; [exact Hc |]. split; [apply fst_zip; lia |]. split; [apply snd_zip; lia |].
  split; [unfold ConcatXFM._get_transform_filenames; by rewrite Hc |].
  split; [rewrite length_map, length_zip_with; lia |].
  intros. apply antsApplyTransforms_rev.
Qed.

Lemma concat_xfm_flags_follow_their_transform_witness :
  length [true; false] = length ["xfm1.h5"; "xfm0.h5"]
  ∧ ConcatXFM._get_transform_filenames ["xfm1.h5"; "xfm0.h5"] (Some [true; false])
    = Ok (String.concat " "
            (map ConcatXFM.transform_arg (zip ["xfm1.h5"; "xfm0.h5"] [true; false]))).
Proof.
  split; [reflexivity |].
  apply (concat_xfm_flags_follow_their_transform ["xfm1.h5"; "xfm0.h5"] [true; false]).
  reflexivity.
Defined.

(** ** File names *)

Section Replace.

Lemma string_app_cons (c : ascii) (s t : string) : String c s +:+ t = String c (s +:+ t).
Proof. reflexivity. Qed.

Lemma prefix_cons (a c : ascii) (o s : string) :
  String.prefix (String a o) (String c s) = Ascii.eqb a c && String.prefix o s.
Proof.
  simpl. destruct (Ascii.eqb_spec a c) as [-> | N].
  - destruct (ascii_dec c c); [done | congruence].
  - destruct (ascii_dec a c); [congruence | done].
Qed.

Lemma prefix_app_self (o q : string) : String.prefix o (o +:+ q) = true.
Proof.
  induction o as [|a o IH]; [by destruct q |].
  rewrite string_app_cons, prefix_cons, Ascii.eqb_refl. exact IH.
Qed.

(** Once an occurrence is matched, its remaining characters are dropped. *)
Lemma replace_from_skip (old new o q : string) :
  replace_from old new (String.length o) (o +:+ q) = replace_from old new 0 q.
Proof.
  induction o as [|a o IH]; [reflexivity |].
  rewrite string_app_cons. simpl. exact IH.
Qed.

(** A match that starts before an occurrence of a pattern whose first
    character is not repeated in it ends before that occurrence. *)
Lemma prefix_before_occurrence (a : ascii) (o u r : string) :
  has_char a o = false →
  String.prefix o (u +:+ String a r) = true → String.prefix o u = true.
Proof.
  revert u. induction o as [|b o IH]; intros u Ha H.
  - by destruct u.
  - simpl in Ha. apply orb_false_iff in Ha as [Hab Ha].
    destruct u as [|d u].
    + change (EmptyString +:+ String a r) with (String a r) in H.
      rewrite prefix_cons in H. apply andb_true_iff in H as [H _].
      rewrite Ascii.eqb_sym in H. congruence.
    + rewrite string_app_cons, prefix_cons in H. apply andb_true_iff in H as [H1 H2].
      rewrite prefix_cons, H1. simpl. by apply IH.
Qed.

Lemma str_replace_absent (s old new : string) :
  old ≠ "" → occurs old s = false → str_replace s old new = s.
Proof.
  intros Hne. unfold str_replace. induction s as [|c s IH]; intros H; [reflexivity |].
  cbn [occurs] in H. apply orb_false_iff in H as [H1 H2].
  cbn [replace_from]. rewrite H1. f_equal. by apply IH.
Qed.

Lemma str_replace_first (a : ascii) (o new p q : string) :
  has_char a o = false →
  occurs (String a o) p = false →
  str_replace (p +:+ String a o +:+ q) (String a o) new
  = p +:+ new +:+ str_replace q (String a o) new.
Proof.
  intros Ha. unfold str_replace. induction p as [|c p IH]; intros H.
  - change (EmptyString +:+ String a o +:+ q) with (String a (o +:+ q)).
    cbn [replace_from].
    change (String a (o +:+ q)) with (String a o +:+ q).
    rewrite prefix_app_self.
    change (String.length (String a o) - 1) with (String.length o - 0).
    rewrite Nat.sub_0_r, replace_from_skip. reflexivity.
  - cbn [occurs] in H. apply orb_false_iff in H as [H1 H2].
    rewrite string_app_cons. cbn [replace_from].
    destruct (String.prefix (String a o) (String c (p +:+ String a o +:+ q))) eqn:E.
    + exfalso. rewrite prefix_cons in E. apply andb_true_iff in E as [E1 E2].
      change (p +:+ String a o +:+ q) with (p +:+ String a (o +:+ q)) in E2.
      apply prefix_before_occurrence in E2; [| exact Ha].
      rewrite prefix_cons, E1, E2 in H1. discriminate.
    + rewrite IH by exact H2. reflexivity.
Qed.
End Replace.

(** X4.  [_replace_mgz] rewrites every [.mgz] of the name, from left to right:
    a name without [.mgz] is returned as it is, a name whose only [.mgz]
    is its extension gets the extension [.nii.gz], and a [.mgz] inside a
    directory name is rewritten as well. *)
Theorem replace_mgz_rewrites_every_occurrence :
  ∀ stem file,
    occurs ".mgz" stem = false →
    occurs ".mgz" file = false →
    surfaces_functions._replace_mgz stem = stem
    ∧ surfaces_functions._replace_mgz (stem +:+ ".mgz") = stem +:+ ".nii.gz"
    ∧ surfaces_functions._replace_mgz (stem +:+ ".mgz" +:+ file +:+ ".mgz")
      = stem +:+ ".nii.gz" +:+ file +:+ ".nii.gz"
    ∧ (∀ rest,
         surfaces_functions._replace_mgz (stem +:+ ".mgz" +:+ rest)
         = stem +:+ ".nii.gz" +:+ surfaces_functions._replace_mgz rest).
Proof.
  intros stem file Hs Hf.
  assert (Hfirst : ∀ p rest,
       occurs ".mgz" p = false →
       surfaces_functions._replace_mgz (p +:+ ".mgz" +:+ rest)
       = p +:+ ".nii.gz" +:+ surfaces_functions._replace_mgz rest).
  { intros p rest H. unfold surfaces_functions._replace_mgz.
    by apply (str_replace_first "."%char "mgz" ".nii.gz"). }
  split; [by apply str_replace_absent |].
  split; [exact (Hfirst stem "" Hs) |].
  split; [| intros rest; by apply Hfirst].
  rewrite Hfirst by exact Hs. f_equal. f_equal. exact (Hfirst file "" Hf).
Qed.

Lemma replace_mgz_rewrites_every_occurrence_witness :
  occurs ".mgz" "sub-01/mri/norm" = false
  ∧ occurs ".mgz" "/T2" = false
  ∧ surfaces_functions._replace_mgz ("sub-01/mri/norm" +:+ ".mgz")
    = "sub-01/mri/norm" +:+ ".nii.gz".
Proof.
  split; [reflexivity |]. split; [reflexivity |].
  apply (replace_mgz_rewrites_every_occurrence "sub-01/mri/norm" "/T2"); reflexivity.
Defined.

(** X5.  [_load_intermediate_xfms] names the two stored transforms between the
    intermediate template and [std].  In the intermediate name the cohort
    separator [:cohort-] is written [+] (MNIInfant:cohort-1 becomes
    MNIInfant+1); a name without cohort is used as it is; [std] is used as
    it is, with its cohort separator if it has one. *)
Theorem load_intermediate_xfms_paths :
  ∀ ext template cohort std,
    occurs ":cohort-" template = false →
    occurs ":cohort-" cohort = false →
    registration._load_intermediate_xfms ext (template +:+ ":cohort-" +:+ cohort) std
    = (load_readable ext ("tpl_xfms/from-" +:+ (template +:+ "+" +:+ cohort)
                          +:+ "_to-" +:+ std +:+ "_xfm.h5"),
       load_readable ext ("tpl_xfms/from-" +:+ std +:+ "_to-"
                          +:+ (template +:+ "+" +:+ cohort) +:+ "_xfm.h5"))
    ∧ registration._load_intermediate_xfms ext template std
      = (load_readable ext ("tpl_xfms/from-" +:+ template +:+ "_to-" +:+ std +:+ "_xfm.h5"),
         load_readable ext ("tpl_xfms/from-" +:+ std +:+ "_to-" +:+ template +:+ "_xfm.h5")).
Proof.
  intros ext template cohort std Ht Hc.
  unfold registration._load_intermediate_xfms.
  rewrite (str_replace_first ":"%char "cohort-" "+" template cohort eq_refl Ht).
  rewrite (str_replace_absent cohort ":cohort-" "+") by done.
  rewrite (str_replace_absent template ":cohort-" "+") by done.
  split; reflexivity.
Qed.

Lemma load_intermediate_xfms_paths_witness :
  occurs ":cohort-" "MNIInfant" = false
  ∧ occurs ":cohort-" "1" = false
  ∧ registration._load_intermediate_xfms sample_externals
      ("MNIInfant" +:+ ":cohort-" +:+ "1") "MNIPediatricAsym:cohort-4"
    = (load_readable sample_externals
         ("tpl_xfms/from-" +:+ ("MNIInfant" +:+ "+" +:+ "1")
          +:+ "_to-" +:+ "MNIPediatricAsym:cohort-4" +:+ "_xfm.h5"),
       load_readable sample_externals
         ("tpl_xfms/from-" +:+ "MNIPediatricAsym:cohort-4" +:+ "_to-"
          +:+ ("MNIInfant" +:+ "+" +:+ "1") +:+ "_xfm.h5")).
Proof.
  split; [reflexivity |]. split; [reflexivity |].
  apply (load_intermediate_xfms_paths sample_externals "MNIInfant" "1"
           "MNIPediatricAsym:cohort-4"); reflexivity.
Defined.

(** ** Registration graphs *)

Section Coregistration.
Import Engine.
#[local] Open Scope list_scope.

(** X6.  The topology of [init_coregistration_wf] is decided by [t1w_mask] and
    [probmap] alone: the other arguments change neither the node names nor
    the edges.  [sloppy] and [debug] only reach the inputs of [coreg]. *)
Theorem coregistration_topology_depends_on_mask_flags_only :
  ∀ ext ext' bspline bspline' mem_gb mem_gb' omp omp' sloppy sloppy' debug debug'
    name name' h h' t1w_mask probmap,
    let wf := built (registration.init_coregistration_wf ext bspline mem_gb omp sloppy debug
                       t1w_mask probmap name (fresh h)) in
    let wf' := built (registration.init_coregistration_wf ext' bspline' mem_gb' omp' sloppy'
                        debug' t1w_mask probmap name' (fresh h')) in
    node_names wf = node_names wf'
    ∧ edges wf = edges wf'
    ∧ inputs_set wf "coreg"
      = ("float", VBool sloppy)
        :: (if debug then [("args", VStr "--write-interval-volumes 5");
                           ("output_inverse_warped_image", VBool sloppy);
                           ("output_warped_image", VBool sloppy)]
            else [])
    ∧ map (inputs_set wf) (List.filter (λ n, negb (String.eqb n "coreg")) (node_names wf))
      = map (λ _, []) (List.filter (λ n, negb (String.eqb n "coreg")) (node_names wf)).
Proof.
  intros. subst wf wf'.
  destruct t1w_mask, probmap, debug, debug'; vm_compute; repeat split.
Qed.

(** X7.  In every branch of [init_coregistration_wf] the mask delivered as
    [t1w_mask] is the mask applied to make [t1w_brain], and the two
    registration masks are dilated from one and the same image.  The bias
    correction is weighted by the mapped mask unless the T1w mask was
    given, and [in_probmap] is read in the probability-map branch only. *)
Theorem coregistration_mask_sources :
  ∀ ext bspline mem_gb omp sloppy debug t1w_mask probmap name h,
    let wf := built (registration.init_coregistration_wf ext bspline mem_gb omp sloppy debug
                       t1w_mask probmap name (fresh h)) in
    sources_of wf "apply_mask" "in_mask" = sources_of wf "outputnode" "t1w_mask"
    ∧ sources_of wf "outputnode" "t1w_mask"
      = [if t1w_mask then ("inputnode", "in_mask")
         else if probmap then ("thr_mask", "out_mask")
         else ("map_precomp_mask", "output_image")]
    ∧ sources_of wf "refine_mask" "in_file" = sources_of wf "reg_mask" "in_file"
    ∧ sources_of wf "reg_mask" "in_file"
      = [if t1w_mask then ("t2w_masker", "out_mask") else ("inputnode", "in_mask")]
    ∧ sources_of wf "final_n4" "weight_image"
      = (if t1w_mask then []
         else [if probmap then ("map_mask", "output_image")
               else ("map_precomp_mask", "output_image")])
    ∧ inputs_read wf ["in_t1w"; "in_t2w"; "in_mask"; "in_probmap"]
      = ["in_t1w"; "in_t2w"; "in_mask"]
        ++ (if negb t1w_mask && probmap then ["in_probmap"] else []).
Proof.
  intros. subst wf. destruct t1w_mask, probmap, debug; vm_compute; repeat split.
Qed.

(** X8.  [init_coregister_derivatives_wf] adds one node and four edges per flag
    that is set; [inputnode] and [outputnode] enter the graph with the
    first branch, so with no flag set the returned graph is empty. *)
Theorem coregister_derivatives_size :
  ∀ t1w_mask t1w_aseg t2w_aseg name h,
    let wf := built (registration.init_coregister_derivatives_wf t1w_mask t1w_aseg t2w_aseg
                       name (fresh h)) in
    let n := count_true [t1w_mask; t1w_aseg; t2w_aseg] in
    length (nodes wf) = (if Nat.eqb n 0 then 0 else n + 2)
    ∧ length (edges wf) = 4 * n
    ∧ has_node_named wf "inputnode" = negb (Nat.eqb n 0)
    ∧ has_node_named wf "outputnode" = negb (Nat.eqb n 0)
    ∧ wf_name wf = name.
Proof.
  intros. subst wf n. destruct t1w_mask, t1w_aseg, t2w_aseg; vm_compute; repeat split.
Qed.

(** X9.  Every branch of [init_coregister_derivatives_wf] resamples with the one
    transform [t1w2t2w_xfm] onto the reference of the space it moves to:
    [t2w_ref] for the two branches into T2w space, [t1w_ref] for
    [t2waseg2t1w], which alone sets invert flags ([True, False]). *)
Theorem coregister_derivatives_reference_spaces :
  ∀ t1w_mask t1w_aseg t2w_aseg name h,
    let wf := built (registration.init_coregister_derivatives_wf t1w_mask t1w_aseg t2w_aseg
                       name (fresh h)) in
    let ports name := map (sources_of wf name) ["input_image"; "transforms"; "reference_image"] in
    let from fields := map (λ f, [("inputnode", f)]) fields in
    ports "t1wmask2t2w"
      = (if t1w_mask then from ["t1w_mask"; "t1w2t2w_xfm"; "t2w_ref"] else [[]; []; []])
    ∧ ports "t1waseg2t2w"
      = (if t1w_aseg then from ["t1w_aseg"; "t1w2t2w_xfm"; "t2w_ref"] else [[]; []; []])
    ∧ ports "t2waseg2t1w"
      = (if t2w_aseg then from ["t2w_aseg"; "t1w2t2w_xfm"; "t1w_ref"] else [[]; []; []])
    ∧ inputs_set wf "t1wmask2t2w" = []
    ∧ inputs_set wf "t1waseg2t2w" = []
    ∧ inputs_set wf "t2waseg2t1w"
      = (if t2w_aseg then [("invert_transform_flags", VList [VBool true; VBool false])]
         else []).
Proof.
  intros. subst wf ports from. destruct t1w_mask, t1w_aseg, t2w_aseg; vm_compute; repeat split.
Qed.

End Coregistration.

Section ConcatGraph.
Import Engine.
#[local] Open Scope list_scope.

Lemma describe_templates_pure ext templates s :
  registration.describe_templates ext templates s
  = ((registration.describe_templates ext templates (fresh [])).1, s).
Proof.
  unfold registration.describe_templates, lift. reflexivity.
Qed.

End ConcatGraph.

(** ** Surface graphs *)

Section SurfaceReconstruction.
Import Engine.
#[local] Open Scope list_scope.

Lemma midthickness_raises omp_nthreads name s :
  surfaces.init_midthickness_wf omp_nthreads name s
  = (Raise (ValueError "Identity Interface input is not in the fields: name"), s).
Proof. reflexivity. Qed.

Lemma infantfs_raises age_months precomputed omp_nthreads use_aseg name h :
  let r := surfaces.init_infantfs_surface_recon_wf age_months precomputed omp_nthreads
             use_aseg name (fresh h) in
  r.1 = Raise (ValueError "Identity Interface input is not in the fields: name")
  ∧ map node_name (instantiated r.2)
    = ["inputnode"; "outputnode"; "gen_recon_outdir"; "reconall"; "fssource"]
  ∧ created_outputs r.2 = surfaces.SURFACE_OUTPUTS.
Proof.
  intros r. subst r. unfold surfaces.init_infantfs_surface_recon_wf.
  destruct use_aseg; vm_compute; repeat split.
Qed.

Lemma mcribs_raises omp_nthreads use_mask precomputed mcribs_dir name h :
  let r := surfaces.init_mcribs_surface_recon_wf omp_nthreads true use_mask precomputed
             mcribs_dir name (fresh h) in
  r.1 = Raise (ValueError "Identity Interface input is not in the fields: name")
  ∧ map node_name (instantiated r.2)
    = ["inputnode"; "outputnode"; "map_labels"; "t2w_las"; "seg_las"; "mcribs_recon"]
      ++ (if use_mask then ["mask_dil"; "mask_las"] else [])
      ++ ["mcribs_postrecon"; "fssource"].
Proof.
  intros r. subst r. unfold surfaces.init_mcribs_surface_recon_wf.
  destruct use_mask, (surfaces.str_truthy mcribs_dir); vm_compute; repeat split.
Qed.
End SurfaceReconstruction.

(** X11.  Both surface reconstruction builders raise on every call that
    gets past their own checks: [init_midthickness_wf] hands [name] to
    [IdentityInterface] as an input, which is a [ValueError].
    [init_infantfs_surface_recon_wf] has then created five nodes and
    [init_mcribs_surface_recon_wf] (with [use_aseg]) eight, or ten with
    [use_mask]; neither returns a graph. *)
Theorem surface_reconstruction_builders_always_raise :
  (∀ omp_nthreads name s,
     ∃ msg, surfaces.init_midthickness_wf omp_nthreads name s = (Raise (ValueError msg), s))
  ∧ (∀ age_months precomputed omp_nthreads use_aseg name h,
       let r := surfaces.init_infantfs_surface_recon_wf age_months precomputed omp_nthreads
                  use_aseg name (fresh h) in
       (∃ msg, r.1 = Raise (ValueError msg))
       ∧ map Engine.node_name (Engine.instantiated r.2)
         = ["inputnode"; "outputnode"; "gen_recon_outdir"; "reconall"; "fssource"])
  ∧ (∀ omp_nthreads use_mask precomputed mcribs_dir name h,
       let r := surfaces.init_mcribs_surface_recon_wf omp_nthreads true use_mask
                  precomputed mcribs_dir name (fresh h) in
       (∃ msg, r.1 = Raise (ValueError msg))
       ∧ length (Engine.instantiated r.2) = (if use_mask then 10 else 8)).
Proof.
  split; [| split].
  - intros. eexists. apply midthickness_raises.
  - intros. destruct (infantfs_raises age_months precomputed omp_nthreads use_aseg name h)
      as (H1 & H2 & _). split; [by eexists | exact H2].
  - intros. destruct (mcribs_raises omp_nthreads use_mask precomputed mcribs_dir name h)
      as (H1 & H2). split; [by eexists |].
    rewrite <- (length_map Engine.node_name). subst r. rewrite H2. by destruct use_mask.
Qed.

Section Dhcp.
Import Engine.
#[local] Open Scope list_scope.

End Dhcp.

Section Resample.
Import Engine.
#[local] Open Scope list_scope.

(** X15.  [init_resample_midthickness_dhcp_wf] looks up the dHCP sphere of
    the left, then of the right hemisphere, at density [32k] for the
    grayordinate density ['91k'] and at [59k] for any other value.  A
    failing look-up is raised.  What the look-ups return is written as a
    string and assigned to [new_sphere], which takes existing files: when
    one of the two strings names no file (as ['[]'], the string of an empty
    result, does) the assignment is a [TraitError].  A graph is returned
    exactly when both look-ups succeed and both strings name files.  The
    three nodes are created before the look-ups either way. *)
Theorem resample_midthickness_lookups :
  ∀ ext grayord_density name h,
    let density := if String.eqb grayord_density "91k" then "32k" else "59k" in
    let sphere hemi :=
      get_template ext "dhcpAsym"
        [("cohort", VStr "42"); ("density", VStr density); ("suffix", VStr "sphere");
         ("hemi", VStr hemi); ("space", VNone); ("extension", VStr ".surf.gii")] ∅ in
    let r := surfaces.init_resample_midthickness_dhcp_wf ext grayord_density name (fresh h) in
    match sphere "L" with
    | Ok lh =>
        match sphere "R" with
        | Ok rh =>
            if file_exists ext (py_str ext lh) && file_exists ext (py_str ext rh) then
              is_ok r.1 = true
              ∧ inputs_set (built r) "resampler"
                = [("new_sphere", VList [VStr (py_str ext lh); VStr (py_str ext rh)])]
              ∧ (kind <$> find_node (built r) "resampler")
                = Some (MapNode ["surface_in"; "current_sphere"; "new_sphere"])
            else ∃ msg, r.1 = Raise (TraitError msg)
        | Raise e => r.1 = Raise e
        end
    | Raise e => r.1 = Raise e
    end
    ∧ map node_name (instantiated r.2) = ["inputnode"; "outputnode"; "resampler"].
Proof.
  intros. subst density sphere r. destruct ext.
  unfold surfaces.init_resample_midthickness_dhcp_wf.
  destruct (String.eqb grayord_density "91k"); vm_compute;
    repeat (case_external; vm_compute); try (repeat split; fail).
  all: repeat match goal with
       | |- context [if ?f ?x then _ else _] => destruct (f x)
       end; vm_compute; first [by repeat split | split; [by eexists | reflexivity]].
Qed.
End Resample.

(** ** Brain extraction *)

Section BrainExtraction.
Import Engine brain_extraction.
#[local] Open Scope list_scope.
Variable ext : externals.


Lemma template_files_target_truthy tpl specs s v1 v2 v3 s' :
  template_files ext tpl specs s = (Ok (v1, v2, v3), s') → truthy v1 = true.
Proof.
  unfold template_files. unfold mbind at 1, M_bind at 1.
  destruct (call_get_template ext tpl _ specs s) as [[t | e] s1]; [| discriminate].
  destruct (truthy t) eqn:Ht; simpl; [| discriminate].
  unfold mbind at 1, M_bind at 1.
  destruct (call_get_template ext tpl _ specs s1) as [[p | e] s2]; [| discriminate].
  unfold mbind at 1, M_bind at 1.
  destruct (truthy p).
  - unfold mret at 1, M_ret at 1. unfold mbind at 1, M_bind at 1.
    destruct (call_get_template ext tpl _ specs s2) as [[m | e] s3]; [| discriminate].
    intros H. injection H as <- _ _ _. exact Ht.
  - destruct (call_get_template ext tpl _ specs s2) as [[q | e] s3]; [| discriminate].
    unfold mbind at 1, M_bind at 1.
    destruct (call_get_template ext tpl _ specs s3) as [[m | e] s4]; [| discriminate].
    intros H. injection H as <- _ _ _. exact Ht.
Qed.

(** What holds of every failed build and of every assembly that starts
    from a template found holds of the builder. *)
Lemma brain_extraction_cases (P : result Workflow * build_state → Prop)
    age aff b sloppy tpl ts mem name omp h :
  (∀ e s, instantiated s = [] → P (Raise e, s)) →
  (∀ v1 v2 v3 D, truthy v1 = true →
     P (main_workflow ext v1 v2 v3 aff b sloppy mem name omp
          {| instantiated := []; dicts := D |})) →
  P (init_infant_brain_extraction_wf ext age aff b sloppy tpl ts mem name omp (fresh h)).
Proof.
  intros Hraise Hmain.
  unfold init_infant_brain_extraction_wf.
  unfold mbind at 1, M_bind at 1.
  pose proof (template_specifics_keeps_log ext age sloppy tpl ts (fresh h)) as H1.
  destruct (template_specifics ext age sloppy tpl ts (fresh h)) as [[ref | e] s1];
    [| by apply Hraise].
  simpl in H1. unfold mbind at 1, M_bind at 1. simpl.
  unfold mbind at 1, M_bind at 1.
  pose proof (template_files_keeps_log ext tpl (default ∅ (dicts s1 !! ref)) s1) as H2.
  destruct (template_files ext tpl (default ∅ (dicts s1 !! ref)) s1)
    as [[[[v1 v2] v3] | e] s2] eqn:E; simpl in H2; rewrite H1 in H2.
  - rewrite (fresh_of_log s2 H2). apply Hmain.
    by eapply template_files_target_truthy.
  - by apply Hraise.
Qed.


End BrainExtraction.


Section BrainExtractionGraph.
Import Engine brain_extraction.
#[local] Open Scope list_scope.





End BrainExtractionGraph.

Section TemplateSpecsEdges.
Import Engine brain_extraction.
#[local] Open Scope list_scope.

(** [template_specifics] on a caller's dict that has a [cohort] entry. *)
Lemma template_specifics_cohort_entry :
  ∀ ext age_months sloppy skull_strip_template ref (s : build_state) (d : dict) (v : pyval),
    dicts s !! ref = Some d →
    d !! "cohort" = Some v →
    let d1 := with_resolution sloppy skull_strip_template d in
    let left (d' : dict) :=
      {| instantiated := instantiated s; dicts := <[ref := d']> (dicts s) |} in
    template_specifics ext age_months sloppy skull_strip_template (Some ref) s
    = if truthy v then (Ok ref, left d1)
      else match age_months with
           | None =>
               (Raise (KeyError ("Age or cohort for " +:+ skull_strip_template
                                 +:+ " must be provided!")), left d1)
           | Some months =>
               match cohort_by_months ext skull_strip_template months with
               | Ok cohort => (Ok ref, left (<["cohort" := cohort]> d1))
               | Raise e => (Raise e, left d1)
               end
           end.
Proof.
  intros ext age sloppy tpl ref s d v Hd Hc d1 left. subst d1 left.
  rewrite template_specifics_spec. cbv zeta.
  assert (Hu : uses_callers_dict s (Some ref) = true).
  { unfold uses_callers_dict. rewrite Hd. simpl. unfold dict_truthy.
    destruct (decide (size d = 0)) as [E | E].
    - apply map_size_empty_inv in E. subst d. by rewrite lookup_empty in Hc.
    - by destruct (size d). }
  rewrite Hu.
  assert (Ht : specs_target s (Some ref) = ref).
  { unfold specs_target. unfold uses_callers_dict in Hu. by rewrite Hu. }
  rewrite Ht. unfold caller_specs. rewrite Hd. simpl.
  unfold with_cohort, dict_get. rewrite with_resolution_cohort, Hc. simpl.
  destruct (truthy v); [reflexivity |].
  destruct age as [a |]; [| reflexivity].
  by destruct (cohort_by_months ext tpl a).
Qed.

(** X20.  A [cohort] entry that is truthy is kept and makes the age unnecessary:
    no cohort is derived and no [KeyError] raised, whatever [age_months]
    is.  A [cohort] entry that is present but falsy (such as [0] or the
    empty string) counts as missing: it is overwritten with the cohort
    derived from the age, or the [KeyError] is raised when there is no
    age. *)
Theorem template_specs_cohort_kept_or_derived :
  ∀ ext age_months sloppy skull_strip_template ref (s : build_state) (d : dict) (v : pyval),
    dicts s !! ref = Some d →
    d !! "cohort" = Some v →
    let d1 := with_resolution sloppy skull_strip_template d in
    let left (d' : dict) :=
      {| instantiated := instantiated s; dicts := <[ref := d']> (dicts s) |} in
    template_specifics ext age_months sloppy skull_strip_template (Some ref) s
    = if truthy v then (Ok ref, left d1)
      else match age_months with
           | None =>
               (Raise (KeyError ("Age or cohort for " +:+ skull_strip_template
                                 +:+ " must be provided!")), left d1)
           | Some months =>
               match cohort_by_months ext skull_strip_template months with
               | Ok cohort => (Ok ref, left (<["cohort" := cohort]> d1))
               | Raise e => (Raise e, left d1)
               end
           end.
Proof.
  intros ext age sloppy tpl ref s d v Hd Hc.
  exact (template_specifics_cohort_entry ext age sloppy tpl ref s d v Hd Hc).
Qed.

Lemma template_specs_cohort_kept_or_derived_witness :
  dicts (fresh [{["cohort" := VInt 0]}]) !! 0 = Some ({["cohort" := VInt 0]} : dict)
  ∧ ({["cohort" := VInt 0]} : dict) !! "cohort" = Some (VInt 0)
  ∧ template_specifics sample_externals (Some 3%Z) false "UNCInfant" (Some 0)
      (fresh [{["cohort" := VInt 0]}])
    = (if truthy (VInt 0) then
         (Ok 0, {| instantiated := [];
                   dicts := <[0 := with_resolution false "UNCInfant" {["cohort" := VInt 0]}]>
                              [{["cohort" := VInt 0]}] |})
       else
         (Ok 0, {| instantiated := [];
                   dicts := <[0 := <["cohort" := VInt 3]>
                                     (with_resolution false "UNCInfant"
                                        {["cohort" := VInt 0]})]>
                              [{["cohort" := VInt 0]}] |})).
Proof.
  split; [vm_compute; reflexivity |]. split; [vm_compute; reflexivity |].
  apply (template_specs_cohort_kept_or_derived sample_externals (Some 3%Z) false
           "UNCInfant" 0 (fresh [{["cohort" := VInt 0]}]) {["cohort" := VInt 0]} (VInt 0));
    vm_compute; reflexivity.
Defined.

(** X21.  [template_specs] is unpacked into the template look-ups beside the
    keywords [suffix] and [desc]: a dict that itself holds [suffix] or
    [desc] makes the first look-up a [TypeError] (keyword given twice), and
    the builder raises it before any node is created. *)
Theorem template_specs_keyword_clash :
  ∀ ext age_months ants_affine_init bspline_fitting_distance sloppy skull_strip_template
    ref mem_gb name omp_nthreads (h : list dict) (d : dict) (key : string) (v cohort : pyval),
    h !! ref = Some d →
    d !! "cohort" = Some cohort →
    truthy cohort = true →
    d !! key = Some v →
    key = "suffix" ∨ key = "desc" →
    let r := init_infant_brain_extraction_wf ext age_months ants_affine_init
               bspline_fitting_distance sloppy skull_strip_template (Some ref) mem_gb name
               omp_nthreads (fresh h) in
    (∃ msg, r.1 = Raise (TypeError msg)) ∧ instantiated r.2 = [].
Proof.
  intros ext age aff b sloppy tpl ref mem name omp h d key v c Hd Hc Hct Hk Hkey r.
  assert (Hfind : ∃ kv,
            List.find (λ kv : string * pyval,
                         bool_decide (is_Some (with_resolution sloppy tpl d !! kv.1)))
              [("suffix", VStr "T1w"); ("desc", VNone)] = Some kv).
  { assert (Hr : ∀ k, k = "suffix" ∨ k = "desc" →
                   with_resolution sloppy tpl d !! k = d !! k).
    { intros k Hk'. unfold with_resolution. destruct (String.eqb tpl "MNIInfant"); [| done].
      apply lookup_insert_ne. by destruct Hk' as [-> | ->]. }
    cbn [List.find fst].
    destruct (bool_decide (is_Some (with_resolution sloppy tpl d !! "suffix"))) eqn:E1;
      [eauto |].
    destruct (bool_decide (is_Some (with_resolution sloppy tpl d !! "desc"))) eqn:E2;
      [eauto |].
    exfalso. apply bool_decide_eq_false in E1, E2.
    destruct Hkey as [-> | ->].
    - apply E1. rewrite Hr by (by left). by eexists.
    - apply E2. rewrite Hr by (by right). by eexists. }
  destruct Hfind as [kv Hfind].
  assert (Hr : ∃ msg s', r = (Raise (TypeError msg), s') ∧ instantiated s' = []).
  { subst r. unfold init_infant_brain_extraction_wf. unfold mbind at 1, M_bind at 1.
    rewrite (template_specifics_cohort_entry ext age sloppy tpl ref (fresh h) d c Hd Hc).
    cbv zeta. rewrite Hct.
    unfold mbind at 1, M_bind at 1. unfold read_dict at 1. cbn [dicts fst snd].
    rewrite list_lookup_insert_eq by (by eapply lookup_lt_Some). cbn [default id].
    unfold mbind at 1, M_bind at 1.
    unfold template_files. unfold mbind at 1, M_bind at 1.
    unfold call_get_template at 1. rewrite Hfind. simpl. eauto. }
  destruct Hr as (msg & s' & -> & Hs). simpl. eauto.
Qed.

Lemma template_specs_keyword_clash_witness :
  [({["cohort" := VInt 1; "suffix" := VStr "T2w"]} : dict)] !! 0
  = Some {["cohort" := VInt 1; "suffix" := VStr "T2w"]}
  ∧ ({["cohort" := VInt 1; "suffix" := VStr "T2w"]} : dict) !! "cohort" = Some (VInt 1)
  ∧ truthy (VInt 1) = true
  ∧ ({["cohort" := VInt 1; "suffix" := VStr "T2w"]} : dict) !! "suffix" = Some (VStr "T2w")
  ∧ ((∃ msg,
        (init_infant_brain_extraction_wf sample_externals None (VBool false) 200 false
           "UNCInfant" (Some 0) (Float 30 (-1)) "infant_brain_extraction_wf" None
           (fresh [{["cohort" := VInt 1; "suffix" := VStr "T2w"]}])).1
        = Raise (TypeError msg))
     ∧ instantiated
         (init_infant_brain_extraction_wf sample_externals None (VBool false) 200 false
            "UNCInfant" (Some 0) (Float 30 (-1)) "infant_brain_extraction_wf" None
            (fresh [{["cohort" := VInt 1; "suffix" := VStr "T2w"]}])).2 = []).
Proof.
  split; [vm_compute; reflexivity |]. split; [vm_compute; reflexivity |].
  split; [reflexivity |]. split; [vm_compute; reflexivity |].
  apply (template_specs_keyword_clash sample_externals None (VBool false) 200 false
           "UNCInfant" 0 (Float 30 (-1)) "infant_brain_extraction_wf" None
           [{["cohort" := VInt 1; "suffix" := VStr "T2w"]}]
           {["cohort" := VInt 1; "suffix" := VStr "T2w"]} "suffix" (VStr "T2w") (VInt 1));
    first [by left | vm_compute; reflexivity].
Defined.

End TemplateSpecsEdges.

(** ** Acyclic graphs *)

Section Dags.
Import Engine.

Lemma dag_check_sound (wf : Workflow) : dag_check wf = true → dag wf.
Proof. intros H. apply andb_true_iff in H as [H1 H2]. split; [done | by eexists]. Qed.

Lemma dag_built_sound (r : result Workflow * build_state) :
  is_ok r.1 && dag_check (built r) = true → is_ok r.1 = true ∧ dag (built r).
Proof.
  intros H. apply andb_true_iff in H as [H1 H2]. split; [done | by apply dag_check_sound].
Qed.

Lemma dag_if_built_sound (r : result Workflow * build_state) :
  dag_check_if_built r = true → dag_if_built r.
Proof.
  unfold dag_check_if_built, dag_if_built. destruct r.1; [apply dag_check_sound | done].
Qed.

Lemma brain_extraction_main_dag ext v1 v2 v3 aff b sloppy mem name omp D :
  dag_if_built (brain_extraction.main_workflow ext v1 v2 v3 aff b sloppy mem name omp
                  {| instantiated := []; dicts := D |}).
Proof.
  apply dag_if_built_sound. unfold brain_extraction.main_workflow.
  destruct (truthy v3), (truthy aff), (brain_extraction._pop v1),
    (brain_extraction._pop v3); vm_compute; reflexivity.
Qed.

(** X22.  The graphs of [init_coregistration_wf] and
    [init_coregister_derivatives_wf] are built without error in every
    configuration, and they and every graph [init_concat_registrations_wf]
    returns have no cycle: their nodes can be ordered so that every edge
    goes forward, nothing flows into [inputnode] and nothing out of
    [outputnode]. *)
Theorem registration_graphs_are_acyclic :
  (∀ ext bspline_fitting_distance mem_gb omp_nthreads sloppy debug t1w_mask probmap name h,
     let r := registration.init_coregistration_wf ext bspline_fitting_distance mem_gb
                omp_nthreads sloppy debug t1w_mask probmap name (fresh h) in
     is_ok r.1 = true ∧ dag (built r))
  ∧ (∀ t1w_mask t1w_aseg t2w_aseg name h,
       let r := registration.init_coregister_derivatives_wf t1w_mask t1w_aseg t2w_aseg name
                  (fresh h) in
       is_ok r.1 = true ∧ dag (built r))
  ∧ (∀ ext templates name h,
       dag_if_built (registration.init_concat_registrations_wf ext templates name (fresh h))).
Proof.
  repeat apply conj.
  - intros. subst r. apply dag_built_sound.
    destruct t1w_mask, probmap, debug; vm_compute; reflexivity.
  - intros. subst r. apply dag_built_sound.
    destruct t1w_mask, t1w_aseg, t2w_aseg; vm_compute; reflexivity.
  - intros. apply dag_if_built_sound.
    unfold registration.init_concat_registrations_wf.
    unfold mbind at 1, M_bind at 1.
    rewrite (describe_templates_pure ext templates (fresh h)).
    destruct (registration.describe_templates ext templates (fresh [])).1 as [[] | e];
      vm_compute; reflexivity.
Qed.

(** X23.  Every graph returned by [init_mcribs_dhcp_wf],
    [init_resample_midthickness_dhcp_wf], [init_infant_brain_extraction_wf]
    and [init_bold_t2s_wf] has no cycle: its nodes can be ordered so that
    every edge goes forward, nothing flows into [inputnode] and nothing out
    of [outputnode]. *)
Theorem returned_graphs_are_acyclic :
  (∀ ext name h, dag_if_built (surfaces.init_mcribs_dhcp_wf ext name (fresh h)))
  ∧ (∀ ext grayord_density name h,
       dag_if_built (surfaces.init_resample_midthickness_dhcp_wf ext grayord_density name
                       (fresh h)))
  ∧ (∀ ext age_months ants_affine_init bspline_fitting_distance sloppy skull_strip_template
       template_specs mem_gb name omp_nthreads h,
       dag_if_built (brain_extraction.init_infant_brain_extraction_wf ext age_months
                       ants_affine_init bspline_fitting_distance sloppy skull_strip_template
                       template_specs mem_gb name omp_nthreads (fresh h)))
  ∧ (∀ echo_times mem_gb omp_nthreads name h,
       dag_if_built (t2s.init_bold_t2s_wf echo_times mem_gb omp_nthreads name (fresh h))).
Proof.
  repeat apply conj.
  - intros. apply dag_if_built_sound. destruct ext.
    vm_compute. repeat case_external; reflexivity.
  - intros. apply dag_if_built_sound. destruct ext.
    unfold surfaces.init_resample_midthickness_dhcp_wf.
    destruct (String.eqb grayord_density "91k"); vm_compute;
      repeat (case_external; vm_compute); try reflexivity.
    all: repeat match goal with
         | |- context [if ?f ?x then _ else _] => destruct (f x)
         end; vm_compute; reflexivity.
  - intros.
    apply (brain_extraction_cases ext dag_if_built).
    + intros e s _. exact I.
    + intros v1 v2 v3 D _. apply brain_extraction_main_dag.
  - intros. apply dag_if_built_sound. unfold t2s.init_bold_t2s_wf, t2s.T2SMap.
    destruct (Nat.ltb (length echo_times) 3); vm_compute; reflexivity.
Qed.
End Dags.

(** ** Declared outputs of the returned graphs *)

Section DeclaredOutputs.
Import Engine.

(** X24.  In every graph a builder returns, each field declared on
    [outputnode] receives exactly one connection, or none when it belongs
    to an additive branch that was not instantiated.
    [init_coregistration_wf] always returns a graph with its six fields
    connected once; [init_coregister_derivatives_wf] always returns a graph
    whose three fields follow the three flags; the graphs of
    [init_concat_registrations_wf], [init_infant_brain_extraction_wf],
    [init_mcribs_dhcp_wf], [init_resample_midthickness_dhcp_wf] and
    [init_bold_t2s_wf], which can raise, have every declared field
    connected once whenever they are returned. *)
Theorem returned_graphs_connect_declared_outputs :
  (∀ ext bspline_fitting_distance mem_gb omp_nthreads sloppy debug t1w_mask probmap name h,
     let r := registration.init_coregistration_wf ext bspline_fitting_distance mem_gb
                omp_nthreads sloppy debug t1w_mask probmap name (fresh h) in
     outputs_ok r [] = true
     ∧ created_outputs r.2 = ["t1w_preproc"; "t1w_brain"; "t1w_mask";
                              "t1w2t2w_xfm"; "t2w2t1w_xfm"; "t2w_preproc"]
     ∧ map (inbound_count (built r)) (created_outputs r.2) = [1; 1; 1; 1; 1; 1])
  ∧ (∀ t1w_mask t1w_aseg t2w_aseg name h,
       let r := registration.init_coregister_derivatives_wf t1w_mask t1w_aseg t2w_aseg name
                  (fresh h) in
       outputs_ok r (absent_outputs [(t1w_mask, ["t2w_mask"]); (t1w_aseg, ["t2w_aseg"]);
                                     (t2w_aseg, ["t1w_aseg"])]) = true
       ∧ created_outputs r.2 = ["t2w_mask"; "t1w_aseg"; "t2w_aseg"])
  ∧ (∀ ext templates name h,
       outputs_ok_if_built
         (registration.init_concat_registrations_wf ext templates name (fresh h)) [] = true)
  ∧ (∀ ext age_months ants_affine_init bspline_fitting_distance sloppy skull_strip_template
       template_specs mem_gb name omp_nthreads h,
       outputs_ok_if_built
         (brain_extraction.init_infant_brain_extraction_wf ext age_months ants_affine_init
            bspline_fitting_distance sloppy skull_strip_template template_specs mem_gb name
            omp_nthreads (fresh h)) [] = true)
  ∧ (∀ ext name h,
       outputs_ok_if_built (surfaces.init_mcribs_dhcp_wf ext name (fresh h)) [] = true)
  ∧ (∀ ext grayord_density name h,
       outputs_ok_if_built
         (surfaces.init_resample_midthickness_dhcp_wf ext grayord_density name (fresh h)) []
       = true)
  ∧ (∀ echo_times mem_gb omp_nthreads name h,
       outputs_ok_if_built (t2s.init_bold_t2s_wf echo_times mem_gb omp_nthreads name (fresh h))
         [] = true).
Proof.
  repeat apply conj.
  - intros. subst r. destruct t1w_mask, probmap, debug; vm_compute; repeat split.
  - intros. subst r. destruct t1w_mask, t1w_aseg, t2w_aseg; vm_compute; repeat split.
  - intros. unfold registration.init_concat_registrations_wf.
    unfold mbind at 1, M_bind at 1.
    rewrite (describe_templates_pure ext templates (fresh h)).
    destruct (registration.describe_templates ext templates (fresh [])).1 as [[] | e];
      vm_compute; reflexivity.
  - intros. apply brain_extraction_outputs_ok.
  - intros. destruct ext. vm_compute. repeat case_external; reflexivity.
  - intros. destruct ext. unfold surfaces.init_resample_midthickness_dhcp_wf.
    destruct (String.eqb grayord_density "91k"); vm_compute;
      repeat (case_external; vm_compute); try reflexivity.
    all: repeat match goal with
         | |- context [if ?f ?x then _ else _] => destruct (f x)
         end; vm_compute; reflexivity.
  - intros. unfold t2s.init_bold_t2s_wf, t2s.T2SMap.
    destruct (Nat.ltb (length echo_times) 3); vm_compute; reflexivity.
Qed.
End DeclaredOutputs.

(** ** Repeated builds *)

(** X25.  [init_infant_brain_extraction_wf] can be called again with the
    same arguments in the same session: although the first call may have
    written [resolution] and [cohort] into the caller's [template_specs],
    the second call, given the same answers by the template look-ups,
    returns a graph with the same name, nodes, parameters and edges, or
    raises the same error. *)
Theorem brain_extraction_repeatable :
  ∀ ext age_months ants_affine_init bspline_fitting_distance sloppy skull_strip_template
    template_specs mem_gb name omp_nthreads h,
    same_structure
      (run_twice
         (brain_extraction.init_infant_brain_extraction_wf ext age_months ants_affine_init
            bspline_fitting_distance sloppy skull_strip_template template_specs mem_gb
            name omp_nthreads) (fresh h)).
Proof. intros. apply brain_extraction_twice. Qed.
